(** * Gateway over a managed file-search backend: model of [src/main.py]

    The development embeds the three pieces of [main.py] that carry control
    flow: the operation polling loop of [upload_file], the retry loop of
    [query_documents] with its textual error classification, and the
    extraction of grounding metadata from the first response candidate.
    Endpoints are functions in a small state-and-exception monad whose state
    holds the remote backend, the temporary files on disk and the trace of
    observable actions (sleeps and backend calls). *)

From Stdlib Require Import String Ascii List ZArith Lia Bool Arith.
From Stdlib Require Import DecimalString.
Import ListNotations.
Local Open Scope list_scope.
Local Open Scope string_scope.
Set Warnings "-register-all".

(** ** Python strings *)

Module PyStr.

(** [sub in s] for Python [str]. *)
Fixpoint contains (sub s : string) : bool :=
  String.prefix sub s
  || match s with
     | EmptyString => false
     | String _ s' => contains sub s'
     end.

(** [s.startswith(p)]. *)
Definition startswith (s p : string) : bool := String.prefix p s.

(** [str.lower] on one character.  Only the letters [A]..[Z] are mapped; the
    code points outside ASCII whose lower case is an ASCII letter (the Kelvin
    sign and the dotted capital I) give [k] and [i], which occur in none of
    the tokens the gateway searches for. *)
Definition lower_ascii (c : ascii) : ascii :=
  let n := nat_of_ascii c in
  if ((65 <=? n) && (n <=? 90))%nat then ascii_of_nat (n + 32) else c.

(** [s.lower()]. *)
Fixpoint lower (s : string) : string :=
  match s with
  | EmptyString => EmptyString
  | String c s' => String (lower_ascii c) (lower s')
  end.

(** [str(n)] for a non-negative integer. *)
Definition of_nat (n : nat) : string := NilEmpty.string_of_uint (Nat.to_uint n).

(** [s] has [sub] as a contiguous substring. *)
Definition Substring (sub s : string) : Prop :=
  exists pre post, s = pre ++ sub ++ post.

(** [s] has a contiguous substring equal to [sub] up to letter case. *)
Definition SubstringNoCase (sub s : string) : Prop :=
  exists pre mid post, s = pre ++ mid ++ post /\ lower mid = lower sub.

End PyStr.

(** ** Exceptions

    [HTTPException] is FastAPI's; everything else the code can catch with
    [except Exception] is a [PyException] with its class name and message. *)

Inductive Exn : Type :=
| HTTPException (status_code : nat) (detail : string)
| PyException (type_name : string) (message : string).

(** [str(e)].  For [HTTPException] this is Starlette's [__str__], which
    renders ["<status_code>: <detail>"]. *)
Definition str (e : Exn) : string :=
  match e with
  | HTTPException status_code detail => PyStr.of_nat status_code ++ ": " ++ detail
  | PyException _ message => message
  end.

Definition status_of (e : Exn) : option nat :=
  match e with
  | HTTPException status_code _ => Some status_code
  | PyException _ _ => None
  end.

(** ** Error classification of [query_documents] (line 320) *)

Definition is_overloaded (error_str : string) : bool :=
  PyStr.contains "503" error_str
  || PyStr.contains "UNAVAILABLE" error_str
  || PyStr.contains "overloaded" (PyStr.lower error_str).

(** The classification as the specification words it: each of the three
    tokens is looked for without regard to letter case. *)
Definition is_overloaded_any_case (error_str : string) : bool :=
  PyStr.contains (PyStr.lower "503") (PyStr.lower error_str)
  || PyStr.contains (PyStr.lower "UNAVAILABLE") (PyStr.lower error_str)
  || PyStr.contains (PyStr.lower "overloaded") (PyStr.lower error_str).

(** ** Python values

    What the endpoints return and what they pass to the backend as [config]
    are dicts, lists and scalars.  A dict keeps its insertion order and may
    hold a key whose value is [None], which is not the same as lacking the
    key. *)

(** A Python [float], as the bit pattern of its IEEE-754 double; the gateway
    only copies such values. *)
Inductive float : Type := Float64 (bits : Z).

Inductive PyVal : Type :=
| PNone
| PBool (b : bool)
| PInt (z : Z)
| PFloat (f : float)
| PStr (s : string)
| PList (l : list PyVal)
| PDict (d : list (string * PyVal)).

Module PyDict.

Definition t : Type := list (string * PyVal).

(** [d.get(k)]: [None] when the key is missing. *)
Fixpoint get (d : t) (k : string) : option PyVal :=
  match d with
  | [] => None
  | (k', v) :: d' => if String.eqb k' k then Some v else get d' k
  end.

(** [d[k] = v]. *)
Fixpoint set (d : t) (k : string) (v : PyVal) : t :=
  match d with
  | [] => [(k, v)]
  | (k', v') :: d' =>
      if String.eqb k' k then (k', v) :: d' else (k', v') :: set d' k v
  end.

(** [d[k].append(v)], for a key holding a list. *)
Fixpoint append_at (d : t) (k : string) (v : PyVal) : t :=
  match d with
  | [] => []
  | (k', v') :: d' =>
      if String.eqb k' k
      then (k', match v' with PList l => PList (l ++ [v]) | _ => v' end) :: d'
      else (k', v') :: append_at d' k v
  end.

(** [bool(d)]. *)
Definition truthy (d : t) : bool :=
  match d with [] => false | _ :: _ => true end.

End PyDict.

(** Truth value of a [str] and of a [list]. *)
Definition str_truthy (s : string) : bool :=
  match s with EmptyString => false | String _ _ => true end.

Definition list_truthy {A : Type} (l : list A) : bool :=
  match l with [] => false | _ :: _ => true end.

(** ** Objects of the backend SDK

    The code probes every attribute with [hasattr] before it reads it, so an
    attribute has three states: the object has no such attribute, it holds
    [None], or it holds a value. *)

Inductive field (A : Type) : Type :=
| NoAttr
| IsNone
| Val (v : A).
Arguments NoAttr {A}.
Arguments IsNone {A}.
Arguments Val {A} v.

(** [x.f if hasattr(x, 'f') else None]. *)
Definition getattr_or_none {A : Type} (f : field A) : option A :=
  match f with Val v => Some v | _ => None end.

(** [hasattr(x, 'f') and x.f] for an attribute that holds an object: objects
    of the SDK are always true, [None] is false. *)
Definition present {A : Type} (f : field A) : option A :=
  match f with Val v => Some v | _ => None end.

(** [hasattr(x, 'f') and x.f] for an attribute that holds a list: an empty
    list is false. *)
Definition present_nonempty {A : Type} (f : field (list A)) : option (list A) :=
  match f with
  | Val (x :: l) => Some (x :: l)
  | _ => None
  end.

Definition of_opt_str (o : option string) : PyVal :=
  match o with Some s => PStr s | None => PNone end.

Definition of_opt_int (o : option Z) : PyVal :=
  match o with Some z => PInt z | None => PNone end.

Module Operation.
Record t : Type := { name : string; done : bool }.
End Operation.

Module Web.
Record t : Type := { uri : field string; title : field string }.
End Web.

Module RetrievedContext.
Record t : Type :=
  { uri : field string; title : field string; text : field string }.
End RetrievedContext.

Module GroundingChunk.
Record t : Type :=
  { web : field Web.t; retrieved_context : field RetrievedContext.t }.
End GroundingChunk.

Module Segment.
Record t : Type :=
  { start_index : field Z; end_index : field Z; text : field string }.
End Segment.

Module GroundingSupport.
Record t : Type :=
  { segment : field Segment.t;
    grounding_chunk_indices : field (list Z);
    confidence_scores : field (list float) }.
End GroundingSupport.

Module GroundingMetadata.
Record t : Type :=
  { grounding_chunks : field (list GroundingChunk.t);
    grounding_supports : field (list GroundingSupport.t) }.
End GroundingMetadata.

Module Candidate.
Record t : Type := { grounding_metadata : field GroundingMetadata.t }.
End Candidate.

Module Response.
Record t : Type :=
  { text : option string; candidates : option (list Candidate.t) }.
End Response.

(** ** Citation extraction of [query_documents] (lines 261-304) *)

(** Lines 273-284: the dict built for one chunk. *)
Definition chunk_data (chunk : GroundingChunk.t) : PyDict.t :=
  let chunk_data : PyDict.t := [] in
  let chunk_data :=
    match present (GroundingChunk.web chunk) with
    | Some web =>
        PyDict.set chunk_data "web"
          (PDict [("uri", of_opt_str (getattr_or_none (Web.uri web)));
                  ("title", of_opt_str (getattr_or_none (Web.title web)))])
    | None => chunk_data
    end in
  let chunk_data :=
    match present (GroundingChunk.retrieved_context chunk) with
    | Some rc =>
        PyDict.set chunk_data "retrieved_context"
          (PDict [("uri", of_opt_str (getattr_or_none (RetrievedContext.uri rc)));
                  ("title", of_opt_str (getattr_or_none (RetrievedContext.title rc)));
                  ("text", of_opt_str (getattr_or_none (RetrievedContext.text rc)))])
    | None => chunk_data
    end in
  chunk_data.

(** Lines 292-302: the dict built for one support. *)
Definition support_data (support : GroundingSupport.t) : PyDict.t :=
  let support_data : PyDict.t := [] in
  let support_data :=
    match present (GroundingSupport.segment support) with
    | Some seg =>
        PyDict.set support_data "segment"
          (PDict [("start_index", of_opt_int (getattr_or_none (Segment.start_index seg)));
                  ("end_index", of_opt_int (getattr_or_none (Segment.end_index seg)));
                  ("text", of_opt_str (getattr_or_none (Segment.text seg)))])
    | None => support_data
    end in
  let support_data :=
    match present_nonempty (GroundingSupport.grounding_chunk_indices support) with
    | Some indices =>
        PyDict.set support_data "grounding_chunk_indices" (PList (map PInt indices))
    | None => support_data
    end in
  let support_data :=
    match present_nonempty (GroundingSupport.confidence_scores support) with
    | Some scores =>
        PyDict.set support_data "confidence_scores" (PList (map PFloat scores))
    | None => support_data
    end in
  support_data.

(** The two [for] loops: each entry whose dict is not empty is appended to
    the list held under [key]. *)
Definition append_entries {A : Type} (entry : A -> PyDict.t) (key : string)
    (grounding_metadata : PyDict.t) (entries : list A) : PyDict.t :=
  fold_left
    (fun gm x =>
       let data := entry x in
       if PyDict.truthy data then PyDict.append_at gm key (PDict data) else gm)
    entries grounding_metadata.

(** The entries that the loops keep: those whose dict has a key. *)
Definition kept {A : Type} (entry : A -> PyDict.t) (x : A) : bool :=
  PyDict.truthy (entry x).

(** Lines 266-304, for a candidate whose grounding container is there. *)
Definition normalize_container (container : GroundingMetadata.t) : PyDict.t :=
  let grounding_metadata : PyDict.t := [("grounding_chunks", PList [])] in
  let grounding_metadata :=
    match present_nonempty (GroundingMetadata.grounding_chunks container) with
    | Some chunks =>
        append_entries chunk_data "grounding_chunks" grounding_metadata chunks
    | None => grounding_metadata
    end in
  let grounding_metadata :=
    match present_nonempty (GroundingMetadata.grounding_supports container) with
    | Some supports =>
        append_entries support_data "grounding_supports"
          (PyDict.set grounding_metadata "grounding_supports" (PList [])) supports
    | None => grounding_metadata
    end in
  grounding_metadata.

(** Lines 264-304, for one candidate. *)
Definition normalize (candidate : Candidate.t) : PyVal :=
  match present (Candidate.grounding_metadata candidate) with
  | Some container => PDict (normalize_container container)
  | None => PNone
  end.

(** Lines 261-304: [grounding_metadata] as the endpoint returns it. *)
Definition extract_grounding_metadata (response : Response.t) : PyVal :=
  match Response.candidates response with
  | Some (candidate :: _) => normalize candidate
  | _ => PNone
  end.

(** A chunk or a support that yields at least one key. *)
Definition chunk_populated (chunk : GroundingChunk.t) : bool :=
  match present (GroundingChunk.web chunk),
        present (GroundingChunk.retrieved_context chunk) with
  | None, None => false
  | _, _ => true
  end.

Definition support_populated (support : GroundingSupport.t) : bool :=
  match present (GroundingSupport.segment support),
        present_nonempty (GroundingSupport.grounding_chunk_indices support),
        present_nonempty (GroundingSupport.confidence_scores support) with
  | None, None, None => false
  | _, _, _ => true
  end.

(** The raw sequences that the loops run over: empty when the attribute is
    missing, [None] or an empty list. *)
Definition chunks_of (container : GroundingMetadata.t) : list GroundingChunk.t :=
  match present_nonempty (GroundingMetadata.grounding_chunks container) with
  | Some chunks => chunks
  | None => []
  end.

Definition supports_of (container : GroundingMetadata.t)
  : list GroundingSupport.t :=
  match present_nonempty (GroundingMetadata.grounding_supports container) with
  | Some supports => supports
  | None => []
  end.

(** An entry of an output sequence that is a dict with at least one key. *)
Definition nonempty_dict (v : PyVal) : Prop :=
  exists k x d, v = PDict ((k, x) :: d).

(** ** Requests *)

Module QueryRequest.
Record t : Type :=
  { query : string; store_name : string; metadata_filter : option string }.
End QueryRequest.

(** The uploaded file of a multipart request: its name, if the client sent
    one, and what [await file.read()] gives. *)
Module UploadFile.
Record t : Type := { filename : option string; read : Exn + string }.
End UploadFile.

(** ** Observable actions

    The trace of a request lists, in order, every suspension
    ([asyncio.sleep]) and every call to the backend client with its
    arguments. *)

Inductive Event : Type :=
| Sleep (seconds : nat)
| UploadToFileSearchStore (file file_search_store_name : string) (config : PyVal)
| OperationsGet (operation : Operation.t)
| GenerateContent (model contents : string)
    (file_search_store_names : list string) (metadata_filter : option string)
| FileSearchStoresDelete (name : string) (force : bool).

Definition is_sleep (e : Event) : bool :=
  match e with Sleep _ => true | _ => false end.

Definition is_fetch (e : Event) : bool :=
  match e with OperationsGet _ => true | _ => false end.

Definition is_generate (e : Event) : bool :=
  match e with GenerateContent _ _ _ _ => true | _ => false end.

(** ** The world outside the gateway

    [W] is the state of everything the gateway talks to.  Every remote call
    may raise, and changes [W]. *)

Record Env (W : Type) : Type := {
  (* os.path.splitext *)
  splitext : string -> string * string;
  (* tempfile.NamedTemporaryFile(delete=False, suffix=...): the path chosen *)
  named_temporary_file : string -> W -> (Exn + string) * W;
  (* tmp_file.write(content) *)
  tmp_file_write : string -> string -> W -> (Exn + unit) * W;
  (* json.loads(metadata), iterated as a list *)
  json_loads : string -> Exn + list PyVal;
  (* client.file_search_stores.upload_to_file_search_store *)
  upload_to_file_search_store :
    string -> string -> PyVal -> W -> (Exn + Operation.t) * W;
  (* client.operations.get *)
  operations_get : Operation.t -> W -> (Exn + Operation.t) * W;
  (* client.models.generate_content *)
  generate_content :
    string -> string -> list string -> option string ->
    W -> (Exn + Response.t) * W;
  (* client.file_search_stores.delete *)
  file_search_stores_delete : string -> bool -> W -> (Exn + unit) * W
}.
Arguments splitext {W}.
Arguments named_temporary_file {W}.
Arguments tmp_file_write {W}.
Arguments json_loads {W}.
Arguments upload_to_file_search_store {W}.
Arguments operations_get {W}.
Arguments generate_content {W}.
Arguments file_search_stores_delete {W}.

(** ** State and exceptions *)

Record State (W : Type) : Type := {
  world : W;
  files : list string;      (* temporary files that exist on disk *)
  trace : list Event
}.
Arguments Build_State {W}.
Arguments world {W}.
Arguments files {W}.
Arguments trace {W}.

Definition M (W A : Type) : Type := State W -> (Exn + A) * State W.

Definition ret {W A : Type} (a : A) : M W A := fun s => (inr a, s).

Definition raise {W A : Type} (e : Exn) : M W A := fun s => (inl e, s).

Definition bind {W A B : Type} (c : M W A) (k : A -> M W B) : M W B :=
  fun s =>
    match c s with
    | (inr a, s') => k a s'
    | (inl e, s') => (inl e, s')
    end.

Notation "x <- c ;; k" := (bind c (fun x => k))
  (at level 61, c at next level, right associativity).
Notation "c ;;; k" := (bind c (fun _ => k))
  (at level 61, right associativity).

(** [try: c  except Exception as e: h e]. *)
Definition try_except {W A : Type} (c : M W A) (h : Exn -> M W A) : M W A :=
  fun s =>
    match c s with
    | (inr a, s') => (inr a, s')
    | (inl e, s') => h e s'
    end.

(** [try: c  finally: f].  The outcome of [c] stands unless [f] raises. *)
Definition try_finally {W A : Type} (c : M W A) (f : M W unit) : M W A :=
  fun s =>
    match c s with
    | (r, s') =>
        match f s' with
        | (inr _, s'') => (r, s'')
        | (inl e, s'') => (inl e, s'')
        end
    end.

Definition lift_result {W A : Type} (r : Exn + A) : M W A :=
  match r with inr a => ret a | inl e => raise e end.

Definition log {W : Type} (ev : Event) : M W unit :=
  fun s => (inr tt, Build_State (world s) (files s) (trace s ++ [ev])).

(** A call that runs in the world outside. *)
Definition remote {W A : Type} (f : W -> (Exn + A) * W) : M W A :=
  fun s =>
    let (r, w) := f (world s) in
    (r, Build_State w (files s) (trace s)).

(** [await asyncio.sleep(seconds)]. *)
Definition sleep {W : Type} (seconds : nat) : M W unit := log (Sleep seconds).

(** [os.path.exists(path)] and [os.unlink(path)] on temporary files. *)
Definition path_in (path : string) (fs : list string) : bool :=
  existsb (String.eqb path) fs.

Definition os_path_exists {W : Type} (path : string) : M W bool :=
  fun s => (inr (path_in path (files s)), s).

Definition os_unlink {W : Type} (path : string) : M W unit :=
  fun s =>
    if path_in path (files s)
    then (inr tt,
          Build_State (world s)
            (filter (fun p => negb (String.eqb path p)) (files s)) (trace s))
    else (inl (PyException "FileNotFoundError"
                 ("[Errno 2] No such file or directory: '" ++ path ++ "'")), s).

Definition create_file {W : Type} (path : string) : M W unit :=
  fun s => (inr tt, Build_State (world s) (path :: files s) (trace s)).

(** ** The endpoints *)

(** Names bound in the module's global scope: the imports of lines 1-14 and
    the top-level assignments, classes and functions.  [asyncio] is imported
    only inside [upload_file] (line 196) and [query_documents] (line 323),
    where it is a local name. *)
Definition module_globals : list string :=
  ["os"; "time"; "traceback"; "Optional"; "List"; "FastAPI"; "UploadFile";
   "File"; "HTTPException"; "Form"; "CORSMiddleware"; "StaticFiles";
   "FileResponse"; "BaseModel"; "load_dotenv"; "genai"; "types"; "tempfile";
   "json"; "api_key"; "client"; "app"; "CreateStoreRequest"; "QueryRequest";
   "MetadataItem"; "UploadFileRequest"; "wait_for_operation"; "read_root";
   "create_store"; "list_stores"; "delete_store"; "upload_file";
   "query_documents"; "list_documents"].

(** The store-namespace prefix of [delete_store] and [list_documents]. *)
Definition store_prefix : string := "fileSearchStores/".

(** Lines 143 and 345:
    [f"fileSearchStores/{store_id}" if not store_id.startswith("fileSearchStores/") else store_id]. *)
Definition store_name_of (store_id : string) : string :=
  if negb (PyStr.startswith store_id store_prefix)
  then store_prefix ++ store_id
  else store_id.

Definition max_attempts : nat := 60.
Definition max_retries : nat := 3.
Definition model_name : string := "gemini-2.5-flash".

(** Lines 248-249: the filter is set on the tool only [if request.metadata_filter]. *)
Definition metadata_filter_of (request : QueryRequest.t) : option string :=
  match QueryRequest.metadata_filter request with
  | Some f => if str_truthy f then Some f else None
  | None => None
  end.

Section Endpoints.

Context {W : Type} (env : Env W).

(** Reading a global name that the module may not bind. *)
Definition load_global (name : string) : M W unit :=
  if existsb (String.eqb name) module_globals
  then ret tt
  else raise (PyException "NameError" ("name '" ++ name ++ "' is not defined")).

Definition client_operations_get (operation : Operation.t) : M W Operation.t :=
  log (OperationsGet operation) ;;;
  remote (operations_get env operation).

Definition client_upload (file store_name : string) (config : PyVal)
  : M W Operation.t :=
  log (UploadToFileSearchStore file store_name config) ;;;
  remote (upload_to_file_search_store env file store_name config).

Definition client_generate_content (model contents : string)
    (store_names : list string) (metadata_filter : option string)
  : M W Response.t :=
  log (GenerateContent model contents store_names metadata_filter) ;;;
  remote (generate_content env model contents store_names metadata_filter).

Definition client_stores_delete (name : string) (force : bool) : M W unit :=
  log (FileSearchStoresDelete name force) ;;;
  remote (file_search_stores_delete env name force).

(** *** [upload_file], lines 200-203: the polling loop.

    [while not operation.done and attempt < max_attempts].  [fuel] bounds the
    recursion; [poll_while_fuel] below shows that [max_attempts - attempt]
    units are enough, so that the branch for no fuel is never the one that
    ends the loop. *)
Fixpoint poll_while (fuel attempt : nat) (operation : Operation.t)
  : M W Operation.t :=
  if negb (Operation.done operation) && (attempt <? max_attempts)%nat then
    match fuel with
    | O => ret operation
    | S fuel' =>
        sleep 5 ;;;
        operation <- client_operations_get operation ;;
        poll_while fuel' (attempt + 1) operation
    end
  else ret operation.

(** Lines 197-206 of [upload_file]: poll, then fail unless done. *)
Definition poll_until_done (operation : Operation.t) : M W Operation.t :=
  operation <- poll_while max_attempts 0 operation ;;
  if negb (Operation.done operation)
  then raise (HTTPException 408 "Upload operation timed out")
  else ret operation.

(** *** [wait_for_operation], lines 72-85.

    The same loop as a helper of its own, which no endpoint calls.  Its body
    reads the global name [asyncio]. *)
Fixpoint wait_while (fuel attempt : nat) (operation : Operation.t)
  : M W Operation.t :=
  if negb (Operation.done operation) && (attempt <? max_attempts)%nat then
    match fuel with
    | O => ret operation
    | S fuel' =>
        load_global "asyncio" ;;;
        sleep 5 ;;;
        operation <- client_operations_get operation ;;
        wait_while fuel' (attempt + 1) operation
    end
  else ret operation.

Definition wait_for_operation (operation : Operation.t) : M W Operation.t :=
  operation <- wait_while max_attempts 0 operation ;;
  if negb (Operation.done operation)
  then raise (HTTPException 408 "Operation timed out")
  else ret operation.

(** *** [upload_file], lines 162-165: the [with] block that stages the
    upload in a temporary file.  The file is created with [delete=False], so
    leaving the block, normally or not, closes it and keeps it on disk. *)
Definition stage_upload (file : UploadFile.t) : M W string :=
  suffix <-
    match UploadFile.filename file with
    | Some filename => ret (snd (splitext env filename))
    | None =>
        raise (PyException "TypeError"
                 "expected str, bytes or os.PathLike object, not NoneType")
    end ;;
  tmp_file_path <- remote (named_temporary_file env suffix) ;;
  create_file tmp_file_path ;;;
  content <- lift_result (UploadFile.read file) ;;
  remote (tmp_file_write env tmp_file_path content) ;;;
  ret tmp_file_path.

(** Lines 219-220: the [finally] clause. *)
Definition cleanup (tmp_file_path : string) : M W unit :=
  there <- os_path_exists tmp_file_path ;;
  if there then os_unlink tmp_file_path else ret tt.

(** Lines 169-215: the body of the inner [try]. *)
Definition index_upload (tmp_file_path store_name display_name : string)
    (metadata : option string) (max_tokens_per_chunk max_overlap_tokens : Z)
  : M W PyVal :=
  custom_metadata <-
    match metadata with
    | Some metadata =>
        if str_truthy metadata
        then lift_result (json_loads env metadata)
        else ret []
    | None => ret []
    end ;;
  let config : PyDict.t :=
    [("display_name", PStr display_name);
     ("chunking_config",
       PDict [("white_space_config",
                PDict [("max_tokens_per_chunk", PInt max_tokens_per_chunk);
                       ("max_overlap_tokens", PInt max_overlap_tokens)])])] in
  let config :=
    if list_truthy custom_metadata
    then PyDict.set config "custom_metadata" (PList custom_metadata)
    else config in
  operation <- client_upload tmp_file_path store_name (PDict config) ;;
  operation <- poll_until_done operation ;;
  ret (PDict [("success", PBool true);
              ("message", PStr "File uploaded and indexed successfully");
              ("operation",
                PDict [("name", PStr (Operation.name operation));
                       ("done", PBool (Operation.done operation))])]).

(** [upload_file], lines 160-223. *)
Definition upload_file (file : UploadFile.t) (store_name display_name : string)
    (metadata : option string) (max_tokens_per_chunk max_overlap_tokens : Z)
  : M W PyVal :=
  try_except
    (tmp_file_path <- stage_upload file ;;
     try_finally
       (index_upload tmp_file_path store_name display_name metadata
          max_tokens_per_chunk max_overlap_tokens)
       (cleanup tmp_file_path))
    (fun e =>
       raise (HTTPException 500 ("Failed to upload file: " ++ str e))).

(** *** [query_documents], lines 233-313: the body of the [try], one attempt. *)
Definition query_attempt (request : QueryRequest.t) : M W PyVal :=
  let metadata_filter := metadata_filter_of request in
  response <-
    client_generate_content model_name (QueryRequest.query request)
      [QueryRequest.store_name request] metadata_filter ;;
  text <-
    match Response.text response with
    | Some text => ret text
    | None =>
        (* response.text[:100] *)
        raise (PyException "TypeError" "'NoneType' object is not subscriptable")
    end ;;
  let grounding_metadata := extract_grounding_metadata response in
  ret (PDict [("success", PBool true);
              ("response", PStr text);
              ("grounding_metadata", grounding_metadata);
              ("model", PStr model_name)]).

(** Lines 232-338: [for attempt in range(max_retries)] with its handler;
    [retry_delay] is the variable that the handler doubles. *)
Fixpoint query_loop (attempts : list nat) (retry_delay : nat)
    (request : QueryRequest.t) : M W PyVal :=
  match attempts with
  | [] => raise (HTTPException 500 "Query failed after multiple retries")
  | attempt :: rest =>
      try_except (query_attempt request)
        (fun e =>
           let error_str := str e in
           if is_overloaded error_str then
             if (attempt <? max_retries - 1)%nat then
               sleep retry_delay ;;;
               query_loop rest (retry_delay * 2) request
             else
               raise (HTTPException 503
                 "The AI model is currently overloaded. Please try again in a few moments.")
           else
             raise (HTTPException 500 ("Query failed: " ++ error_str)))
  end.

Definition query_documents (request : QueryRequest.t) : M W PyVal :=
  query_loop (seq 0 max_retries) 2 request.

(** *** [delete_store], lines 140-147. *)
Definition delete_store (store_id : string) (force : bool) : M W PyVal :=
  try_except
    (let store_name := store_name_of store_id in
     client_stores_delete store_name force ;;;
     ret (PDict [("success", PBool true);
                 ("message", PStr "Store deleted successfully")]))
    (fun e =>
       raise (HTTPException 500 ("Failed to delete store: " ++ str e))).

(** *** [list_documents], lines 342-357. *)
Definition list_documents (store_id : string) : M W PyVal :=
  try_except
    (let store_name := store_name_of store_id in
     let documents : list PyVal := [] in
     ret (PDict [("success", PBool true);
                 ("documents", PList documents);
                 ("message",
                   PStr "Document listing may require additional API methods")]))
    (fun e =>
       raise (HTTPException 500 ("Failed to list documents: " ++ str e))).

End Endpoints.

(** The state in which a request starts: no temporary file, nothing observed. *)
Definition initial {W : Type} (w : W) : State W := Build_State w [] [].

(** The backend call that one attempt of [query_documents] makes. *)
Definition query_call (request : QueryRequest.t) : Event :=
  GenerateContent model_name (QueryRequest.query request)
    [QueryRequest.store_name request] (metadata_filter_of request).

(** A backend on which a status fetch always succeeds and never finds the
    operation done. *)
Definition never_done {W : Type} (env : Env W) : Prop :=
  forall operation w,
    exists operation' w',
      operations_get env operation w = (inr operation', w')
      /\ Operation.done operation' = false.

(** A backend that accepts every submission and answers with an operation
    that is not done yet. *)
Definition accepts_uploads {W : Type} (env : Env W) : Prop :=
  forall file name config w,
    exists operation w',
      upload_to_file_search_store env file name config w = (inr operation, w')
      /\ Operation.done operation = false.

(** A backend on which every query fails with a transient-overload error. *)
Definition always_overloaded_backend {W : Type} (env : Env W) : Prop :=
  forall model contents names metadata_filter w,
    exists e w',
      generate_content env model contents names metadata_filter w = (inl e, w')
      /\ is_overloaded (str e) = true.

(** The store names that a trace hands to the backend. *)
Definition store_names_sent (evs : list Event) : list string :=
  flat_map
    (fun ev =>
       match ev with
       | UploadToFileSearchStore _ name _ => [name]
       | GenerateContent _ _ names _ => names
       | FileSearchStoresDelete name _ => [name]
       | _ => []
       end)
    evs.

(** A computation that, from any state, adds to the trace only events whose
    store names are among [names]. *)
Definition sends {W A : Type} (names : list string) (c : M W A) : Prop :=
  forall s,
    exists evs,
      trace (snd (c s)) = (trace s ++ evs)%list
      /\ incl (store_names_sent evs) names.

(** One round of the polling loop, as it shows in the trace. *)
Definition poll_round (operation : Operation.t) : list Event :=
  [Sleep 5; OperationsGet operation].

(** ** A scripted world, for running the endpoints on concrete requests

    The world counts the remote calls made so far.  [write] is what
    [tmp_file.write] answers, [done_at n] tells whether the [n]-th status
    fetch finds the operation done, and [answers n] is what
    [generate_content] gives when [n] calls were made before. *)
Definition scripted (write : Exn + unit) (done_at : nat -> bool)
    (answers : nat -> Exn + Response.t) : Env nat :=
  {| splitext := fun _ => ("report", ".txt");
     named_temporary_file := fun suffix w => (inr ("/tmp/tmp0" ++ suffix), w);
     tmp_file_write := fun _ _ w => (write, w);
     json_loads := fun _ => inr [];
     upload_to_file_search_store := fun _ _ _ w =>
       (inr {| Operation.name := "operations/1"; Operation.done := false |}, w);
     operations_get := fun operation w =>
       (inr {| Operation.name := Operation.name operation;
               Operation.done := done_at (S w) |}, S w);
     generate_content := fun _ _ _ _ w => (answers w, S w);
     file_search_stores_delete := fun _ _ w => (inr tt, w) |}.

Definition no_answer : nat -> Exn + Response.t :=
  fun _ => inl (PyException "ClientError" "404 NOT_FOUND. Store not found.").

Definition always_overloaded : nat -> Exn + Response.t :=
  fun _ => inl (PyException "ServerError"
                  "503 UNAVAILABLE. The model is overloaded.").

Definition disk_full : Exn :=
  PyException "OSError" "[Errno 28] No space left on device".

(** An indexing operation that never completes. *)
Definition stuck_world : Env nat := scripted (inr tt) (fun _ => false) no_answer.

(** A disk on which the staged content cannot be written. *)
Definition full_disk_world : Env nat :=
  scripted (inl disk_full) (fun _ => true) no_answer.

Definition overloaded_world : Env nat :=
  scripted (inr tt) (fun _ => true) always_overloaded.

(** A backend that indexes at once and rejects every query. *)
Definition plain_world : Env nat :=
  scripted (inr tt) (fun _ => true) no_answer.

Definition bare_request : QueryRequest.t :=
  {| QueryRequest.query := "What is the capital of France?";
     QueryRequest.store_name := "geo";
     QueryRequest.metadata_filter := None |}.

Definition report_file : UploadFile.t :=
  {| UploadFile.filename := Some "report.txt";
     UploadFile.read := inr "quarterly figures" |}.

Definition capital_request : QueryRequest.t :=
  {| QueryRequest.query := "What is the capital of France?";
     QueryRequest.store_name := "fileSearchStores/geo";
     QueryRequest.metadata_filter := None |}.

(** A candidate with one chunk whose only populated field is the text of its
    retrieved context. *)
Definition paris_chunk : GroundingChunk.t :=
  {| GroundingChunk.web := IsNone;
     GroundingChunk.retrieved_context :=
       Val {| RetrievedContext.uri := IsNone;
              RetrievedContext.title := IsNone;
              RetrievedContext.text := Val "Paris is the capital" |} |}.

Definition paris_candidate : Candidate.t :=
  {| Candidate.grounding_metadata :=
       Val {| GroundingMetadata.grounding_chunks := Val [paris_chunk];
              GroundingMetadata.grounding_supports := IsNone |} |}.

(** What the extraction would give if the absent [uri] and [title] were left
    out of the output. *)
Definition paris_with_fields_omitted : PyVal :=
  PDict [("grounding_chunks",
           PList [PDict [("retrieved_context",
                           PDict [("text", PStr "Paris is the capital")])]])].

(** What the code gives: the two keys are there and hold [None]. *)
Definition paris_with_none_fields : PyVal :=
  PDict [("grounding_chunks",
           PList [PDict [("retrieved_context",
                           PDict [("uri", PNone);
                                  ("title", PNone);
                                  ("text", PStr "Paris is the capital")])]])].

Definition bare_candidate : Candidate.t :=
  {| Candidate.grounding_metadata := IsNone |}.

Definition empty_chunk : GroundingChunk.t :=
  {| GroundingChunk.web := NoAttr; GroundingChunk.retrieved_context := IsNone |}.

Definition empty_support : GroundingSupport.t :=
  {| GroundingSupport.segment := IsNone;
     GroundingSupport.grounding_chunk_indices := Val [];
     GroundingSupport.confidence_scores := NoAttr |}.

Definition mixed_candidate : Candidate.t :=
  {| Candidate.grounding_metadata :=
       Val {| GroundingMetadata.grounding_chunks :=
                Val [empty_chunk; paris_chunk; empty_chunk];
              GroundingMetadata.grounding_supports := Val [empty_support] |} |}.

(** ** Runs of the polling loop

    [polls env operation w fetched operation' w']: starting from [operation]
    in world [w], the status fetches on the operations [fetched], each found
    not done, succeed one after the other and end on [operation'], which is
    done, in world [w']. *)
Inductive polls {W : Type} (env : Env W)
  : Operation.t -> W -> list Operation.t -> Operation.t -> W -> Prop :=
| polls_done (operation : Operation.t) (w : W) :
    Operation.done operation = true ->
    polls env operation w [] operation w
| polls_step (operation operation1 operation' : Operation.t) (w w1 w' : W)
    (fetched : list Operation.t) :
    Operation.done operation = false ->
    operations_get env operation w = (inr operation1, w1) ->
    polls env operation1 w1 fetched operation' w' ->
    polls env operation w (operation :: fetched) operation' w'.

(** A computation that leaves the temporary files as they are. *)
Definition keeps_files {W A : Type} (c : M W A) : Prop :=
  forall s, files (snd (c s)) = files s.

(** Lines 169-173 of [upload_file]: the items of the [metadata] form field. *)
Definition metadata_items {W : Type} (env : Env W) (metadata : option string)
  : Exn + list PyVal :=
  match metadata with
  | Some metadata =>
      if str_truthy metadata then json_loads env metadata else inr []
  | None => inr []
  end.

(** Lines 176-187 of [upload_file]: the [config] of the submission, for the
    items that the [metadata] field gave. *)
Definition upload_config (display_name : string)
    (max_tokens_per_chunk max_overlap_tokens : Z) (custom_metadata : list PyVal)
  : PyDict.t :=
  let config : PyDict.t :=
    [("display_name", PStr display_name);
     ("chunking_config",
       PDict [("white_space_config",
                PDict [("max_tokens_per_chunk", PInt max_tokens_per_chunk);
                       ("max_overlap_tokens", PInt max_overlap_tokens)])])] in
  if list_truthy custom_metadata
  then PyDict.set config "custom_metadata" (PList custom_metadata)
  else config.


(** What [upload_file] returns for an operation. *)
Definition upload_reply (operation_name : string) (done : bool) : PyVal :=
  PDict [("success", PBool true);
         ("message", PStr "File uploaded and indexed successfully");
         ("operation",
           PDict [("name", PStr operation_name); ("done", PBool done)])].

(** What [query_documents] returns for a response with text [text]. *)
Definition query_reply (text : string) (response : Response.t) : PyVal :=
  PDict [("success", PBool true);
         ("response", PStr text);
         ("grounding_metadata", extract_grounding_metadata response);
         ("model", PStr model_name)].

Definition overloaded_detail : string :=
  "The AI model is currently overloaded. Please try again in a few moments.".

(** ** [create_store] and [list_stores]

    The two endpoints talk to the store collection of the client, which the
    endpoints above do not use. *)

Module Store.
Record t : Type :=
  { name : option string;
    display_name : option string;
    (* [str(create_time)] when the attribute holds a time *)
    create_time : field string }.
End Store.

Module CreateStoreRequest.
Record t : Type := { display_name : string }.
End CreateStoreRequest.

Record StoreClient (W : Type) : Type := {
  (* client.file_search_stores.create(config=...) *)
  file_search_stores_create : PyVal -> W -> (Exn + Store.t) * W;
  (* iterating client.file_search_stores.list() to its end *)
  file_search_stores_list : W -> (Exn + list Store.t) * W
}.
Arguments file_search_stores_create {W}.
Arguments file_search_stores_list {W}.

(** Lines 110 and 129:
    [str(store.create_time) if hasattr(store, 'create_time') else None].
    An attribute that holds [None] is rendered by [str] as the text "None". *)
Definition create_time_of (store : Store.t) : PyVal :=
  match Store.create_time store with
  | NoAttr => PNone
  | IsNone => PStr "None"
  | Val time => PStr time
  end.

(** Lines 107-111 and 126-130: the dict of one store. *)
Definition store_entry (store : Store.t) : PyVal :=
  PDict [("name", of_opt_str (Store.name store));
         ("display_name", of_opt_str (Store.display_name store));
         ("create_time", create_time_of store)].

Section Stores.

Context {W : Type} (client : StoreClient W).

(** [create_store], lines 97-116. *)
Definition create_store (request : CreateStoreRequest.t) : M W PyVal :=
  try_except
    (file_search_store <-
       remote (file_search_stores_create client
                 (PDict [("display_name",
                           PStr (CreateStoreRequest.display_name request))])) ;;
     ret (PDict [("success", PBool true);
                 ("store", store_entry file_search_store)]))
    (fun e =>
       raise (HTTPException 500 ("Failed to create store: " ++ str e))).

(** [list_stores], lines 120-136: the loop appends one dict per store. *)
Definition list_stores : M W PyVal :=
  try_except
    (listing <- remote (file_search_stores_list client) ;;
     let stores :=
       fold_left (fun stores store => (stores ++ [store_entry store])%list)
         listing [] in
     ret (PDict [("success", PBool true); ("stores", PList stores)]))
    (fun e =>
       raise (HTTPException 500 ("Failed to list stores: " ++ str e))).

End Stores.

(** ** Attributes that are missing and attributes that hold [None]

    [forget] turns a missing attribute into one that holds [None]; the
    functions below do so at every level of a candidate. *)
Definition forget {A : Type} (f : field A) : field A :=
  match f with NoAttr => IsNone | IsNone => IsNone | Val v => Val v end.

Definition forget_in {A : Type} (inner : A -> A) (f : field A) : field A :=
  match f with NoAttr => IsNone | IsNone => IsNone | Val v => Val (inner v) end.

Definition forget_web (web : Web.t) : Web.t :=
  {| Web.uri := forget (Web.uri web); Web.title := forget (Web.title web) |}.

Definition forget_retrieved_context (rc : RetrievedContext.t) : RetrievedContext.t :=
  {| RetrievedContext.uri := forget (RetrievedContext.uri rc);
     RetrievedContext.title := forget (RetrievedContext.title rc);
     RetrievedContext.text := forget (RetrievedContext.text rc) |}.

Definition forget_chunk (chunk : GroundingChunk.t) : GroundingChunk.t :=
  {| GroundingChunk.web := forget_in forget_web (GroundingChunk.web chunk);
     GroundingChunk.retrieved_context :=
       forget_in forget_retrieved_context
         (GroundingChunk.retrieved_context chunk) |}.

Definition forget_segment (seg : Segment.t) : Segment.t :=
  {| Segment.start_index := forget (Segment.start_index seg);
     Segment.end_index := forget (Segment.end_index seg);
     Segment.text := forget (Segment.text seg) |}.

Definition forget_support (support : GroundingSupport.t) : GroundingSupport.t :=
  {| GroundingSupport.segment :=
       forget_in forget_segment (GroundingSupport.segment support);
     GroundingSupport.grounding_chunk_indices :=
       forget (GroundingSupport.grounding_chunk_indices support);
     GroundingSupport.confidence_scores :=
       forget (GroundingSupport.confidence_scores support) |}.

Definition forget_container (container : GroundingMetadata.t) : GroundingMetadata.t :=
  {| GroundingMetadata.grounding_chunks :=
       forget_in (map forget_chunk) (GroundingMetadata.grounding_chunks container);
     GroundingMetadata.grounding_supports :=
       forget_in (map forget_support)
         (GroundingMetadata.grounding_supports container) |}.

Definition forget_candidate (candidate : Candidate.t) : Candidate.t :=
  {| Candidate.grounding_metadata :=
       forget_in forget_container (Candidate.grounding_metadata candidate) |}.

(** ** More scripted worlds *)

(** An indexing operation that is found done at the third status fetch. *)
Definition slow_world : Env nat :=
  scripted (inr tt) (fun n => (3 <=? n)%nat) no_answer.

Definition pending (n : nat) : Operation.t :=
  {| Operation.name := "operations/1"; Operation.done := (3 <=? n)%nat |}.

Definition paris_response : Response.t :=
  {| Response.text := Some "Paris.";
     Response.candidates := Some [paris_candidate] |}.

(** A backend that is overloaded at the first query and answers the second. *)
Definition recovering_world : Env nat :=
  scripted (inr tt) (fun _ => true)
    (fun n => match n with
              | O => always_overloaded 0
              | S _ => inr paris_response
              end).

(** A backend that is overloaded at the first query and rejects the second. *)
Definition degrading_world : Env nat :=
  scripted (inr tt) (fun _ => true)
    (fun n => match n with
              | O => always_overloaded 0
              | S _ => no_answer n
              end).

Definition answering_world : Env nat :=
  scripted (inr tt) (fun _ => true) (fun _ => inr paris_response).

(** A world in which the [metadata] form field is not valid JSON. *)
Definition bad_json : Exn :=
  PyException "JSONDecodeError" "Expecting value: line 1 column 1 (char 0)".

Definition bad_json_world : Env nat :=
  {| splitext := splitext plain_world;
     named_temporary_file := named_temporary_file plain_world;
     tmp_file_write := tmp_file_write plain_world;
     json_loads := fun _ => inl bad_json;
     upload_to_file_search_store := upload_to_file_search_store plain_world;
     operations_get := operations_get plain_world;
     generate_content := generate_content plain_world;
     file_search_stores_delete := file_search_stores_delete plain_world |}.

(** A world whose [metadata] field parses to one item. *)
Definition tagged_item : PyVal :=
  PDict [("key", PStr "year"); ("numeric_value", PInt 2024)].

Definition tagged_world : Env nat :=
  {| splitext := splitext plain_world;
     named_temporary_file := named_temporary_file plain_world;
     tmp_file_write := tmp_file_write plain_world;
     json_loads := fun _ => inr [tagged_item];
     upload_to_file_search_store := upload_to_file_search_store plain_world;
     operations_get := operations_get plain_world;
     generate_content := generate_content plain_world;
     file_search_stores_delete := file_search_stores_delete plain_world |}.

(** A store collection with two stores, one of which has no creation time. *)
Definition two_stores : list Store.t :=
  [{| Store.name := Some "fileSearchStores/a";
      Store.display_name := Some "A";
      Store.create_time := Val "2025-01-01 00:00:00+00:00" |};
   {| Store.name := Some "fileSearchStores/b";
      Store.display_name := None;
      Store.create_time := IsNone |}].

Definition two_stores_client : StoreClient nat :=
  {| file_search_stores_create := fun _ w =>
       (inl (PyException "ClientError" "403 PERMISSION_DENIED."), w);
     file_search_stores_list := fun w => (inr two_stores, S w) |}.

(** * Properties *)

(** ** Facts on strings *)

Section StringFacts.

Lemma prefix_app (p t : string) : String.prefix p (p ++ t) = true.
Proof.
  induction p as [|c p IH]; simpl.
  - destruct t; reflexivity.
  - destruct (ascii_dec c c) as [_|N]; [exact IH | contradiction].
Qed.

Lemma prefix_inv (p s : string) :
  String.prefix p s = true -> exists t, s = p ++ t.
Proof.
  revert s; induction p as [|c p IH]; intros s H.
  - exists s; reflexivity.
  - destruct s as [|d s]; simpl in H; [discriminate|].
    destruct (ascii_dec c d) as [->|_]; [|discriminate].
    destruct (IH _ H) as [t ->]. exists t; reflexivity.
Qed.

Lemma append_assoc (a b c : string) : (a ++ b) ++ c = a ++ (b ++ c).
Proof. induction a as [|x a IH]; simpl; [reflexivity | now rewrite IH]. Qed.

Lemma contains_spec (sub s : string) :
  PyStr.contains sub s = true <-> PyStr.Substring sub s.
Proof.
  split.
  - induction s as [|c s IH]; cbn [PyStr.contains]; intros H.
    + rewrite orb_false_r in H. destruct (prefix_inv _ _ H) as [t ->].
      exists "", t; reflexivity.
    + apply orb_true_iff in H as [H|H].
      * destruct (prefix_inv _ _ H) as [t E]. exists "", t; exact E.
      * destruct (IH H) as (pre & post & ->).
        exists (String c pre), post; reflexivity.
  - intros (pre & post & ->).
    induction pre as [|c pre IH].
    + change ("" ++ sub ++ post) with (sub ++ post).
      destruct (sub ++ post) eqn:E; cbn [PyStr.contains];
        rewrite <- E, prefix_app; reflexivity.
    + change (String c pre ++ sub ++ post) with (String c (pre ++ sub ++ post)).
      cbn [PyStr.contains]. rewrite IH. apply orb_true_r.
Qed.

Lemma lower_app (a b : string) :
  PyStr.lower (a ++ b) = PyStr.lower a ++ PyStr.lower b.
Proof. induction a as [|c a IH]; simpl; [reflexivity | now rewrite IH]. Qed.

Lemma lower_split (s a b : string) :
  PyStr.lower s = a ++ b ->
  exists a' b', s = a' ++ b' /\ PyStr.lower a' = a /\ PyStr.lower b' = b.
Proof.
  revert s; induction a as [|c a IH]; intros s H.
  - exists "", s; auto.
  - destruct s as [|d s]; simpl in H; [discriminate|].
    injection H as Hc Hs. destruct (IH _ Hs) as (a' & b' & -> & <- & <-).
    exists (String d a'), b'; simpl; rewrite Hc; auto.
Qed.

Lemma contains_lower_spec (sub s : string) :
  PyStr.contains (PyStr.lower sub) (PyStr.lower s) = true
  <-> PyStr.SubstringNoCase sub s.
Proof.
  rewrite contains_spec. split.
  - intros (pre & post & H).
    destruct (lower_split _ _ _ H) as (pre' & r & -> & _ & Hr).
    destruct (lower_split _ _ _ Hr) as (mid & post' & -> & Hm & _).
    exists pre', mid, post'; auto.
  - intros (pre & mid & post & -> & Hm).
    exists (PyStr.lower pre), (PyStr.lower post).
    now rewrite !lower_app, Hm.
Qed.

End StringFacts.

(** ** The error classification *)

(** C2, as the code has it: a query failure is classified as a transient
    overload exactly when its error text contains "503" or "UNAVAILABLE"
    as written, or contains "overloaded" in any letter case. *)
Theorem is_overloaded_spec (error_str : string) :
  is_overloaded error_str = true
  <-> PyStr.Substring "503" error_str
      \/ PyStr.Substring "UNAVAILABLE" error_str
      \/ PyStr.SubstringNoCase "overloaded" error_str.
Proof.
  pose proof (contains_lower_spec "overloaded" error_str) as H.
  change (PyStr.lower "overloaded") with "overloaded" in H.
  unfold is_overloaded.
  rewrite !orb_true_iff, H, !contains_spec. tauto.
Qed.

(** C2 as it is worded asks for "UNAVAILABLE" in any letter case too.  The
    text "Service unavailable" has the token in lower case and is not
    classified as an overload. *)
Lemma is_overloaded_unavailable_lower_case :
  ~ (is_overloaded "Service unavailable" = true
     <-> PyStr.SubstringNoCase "503" "Service unavailable"
         \/ PyStr.SubstringNoCase "UNAVAILABLE" "Service unavailable"
         \/ PyStr.SubstringNoCase "overloaded" "Service unavailable").
Proof.
  intros [_ H].
  assert (E : is_overloaded "Service unavailable" = true).
  { apply H. right; left. exists "Service ", "unavailable", "". split; reflexivity. }
  vm_compute in E. discriminate E.
Qed.

(** The boolean reading of the worded classification agrees with its
    statement on substrings. *)
Lemma is_overloaded_any_case_spec (error_str : string) :
  is_overloaded_any_case error_str = true
  <-> PyStr.SubstringNoCase "503" error_str
      \/ PyStr.SubstringNoCase "UNAVAILABLE" error_str
      \/ PyStr.SubstringNoCase "overloaded" error_str.
Proof.
  unfold is_overloaded_any_case.
  rewrite !orb_true_iff, !contains_lower_spec. tauto.
Qed.

(** ** Facts on dicts *)

Section DictFacts.

Lemma get_set_same (d : PyDict.t) (k : string) (v : PyVal) :
  PyDict.get (PyDict.set d k v) k = Some v.
Proof.
  induction d as [|[k' v'] d IH]; simpl.
  - now rewrite String.eqb_refl.
  - destruct (String.eqb k' k) eqn:E; simpl; rewrite E; auto.
Qed.

Lemma get_set_other (d : PyDict.t) (k k' : string) (v : PyVal) :
  k <> k' -> PyDict.get (PyDict.set d k v) k' = PyDict.get d k'.
Proof.
  intros N. induction d as [|[k0 v0] d IH]; simpl.
  - destruct (String.eqb_spec k k'); [contradiction | reflexivity].
  - destruct (String.eqb_spec k0 k) as [->|_]; simpl.
    + destruct (String.eqb_spec k k'); [contradiction | reflexivity].
    + now rewrite IH.
Qed.

Lemma get_append_at_same (d : PyDict.t) (k : string) (l : list PyVal) (v : PyVal) :
  PyDict.get d k = Some (PList l) ->
  PyDict.get (PyDict.append_at d k v) k = Some (PList (l ++ [v])).
Proof.
  induction d as [|[k' v'] d IH]; simpl; [discriminate|].
  destruct (String.eqb k' k) eqn:E; simpl; rewrite E.
  - intros [= ->]. reflexivity.
  - exact IH.
Qed.

Lemma get_append_at_other (d : PyDict.t) (k k' : string) (v : PyVal) :
  k <> k' -> PyDict.get (PyDict.append_at d k v) k' = PyDict.get d k'.
Proof.
  intros N. induction d as [|[k0 v0] d IH]; simpl; [reflexivity|].
  destruct (String.eqb_spec k0 k) as [->|_]; simpl.
  - destruct (String.eqb_spec k k'); [contradiction | reflexivity].
  - now rewrite IH.
Qed.

End DictFacts.

(** ** The citation extraction *)

Section Normalizer.

Context {A : Type} (entry : A -> PyDict.t) (key : string).

(** The loop appends, in input order, the dicts of the entries that have
    one key at least. *)
Lemma append_entries_get (xs : list A) (gm : PyDict.t) (l : list PyVal) :
  PyDict.get gm key = Some (PList l) ->
  PyDict.get (append_entries entry key gm xs) key
  = Some (PList (l ++ map (fun x => PDict (entry x)) (filter (kept entry) xs))).
Proof.
  revert gm l; induction xs as [|x xs IH]; intros gm l H; simpl.
  - now rewrite app_nil_r.
  - unfold kept at 1. destruct (PyDict.truthy (entry x)).
    + rewrite (IH _ (l ++ [PDict (entry x)])%list).
      * simpl. now rewrite <- app_assoc.
      * now apply get_append_at_same.
    + now apply IH.
Qed.

Lemma append_entries_other (xs : list A) (gm : PyDict.t) (k : string) :
  key <> k ->
  PyDict.get (append_entries entry key gm xs) k = PyDict.get gm k.
Proof.
  intros N. revert gm; induction xs as [|x xs IH]; intros gm; simpl.
  - reflexivity.
  - destruct (PyDict.truthy (entry x)); rewrite IH;
      [now apply get_append_at_other | reflexivity].
Qed.

Lemma kept_entries_nonempty (xs : list A) :
  Forall nonempty_dict (map (fun x => PDict (entry x)) (filter (kept entry) xs)).
Proof.
  induction xs as [|x xs IH]; simpl; [constructor|].
  unfold kept at 1. destruct (entry x) as [|[k v] d] eqn:E; simpl.
  - exact IH.
  - constructor; [|exact IH]. exists k, v, d. now rewrite E.
Qed.

End Normalizer.

Lemma kept_chunk (chunk : GroundingChunk.t) :
  kept chunk_data chunk = chunk_populated chunk.
Proof. destruct chunk as [[| |w] [| |r]]; reflexivity. Qed.

Lemma kept_support (support : GroundingSupport.t) :
  kept support_data support = support_populated support.
Proof.
  destruct support as [[| |g] [| |[|i il]] [| |[|c cl]]]; reflexivity.
Qed.

Lemma normalize_container_chunks (container : GroundingMetadata.t) :
  PyDict.get (normalize_container container) "grounding_chunks"
  = Some (PList (map (fun c => PDict (chunk_data c))
                   (filter chunk_populated (chunks_of container)))).
Proof.
  unfold normalize_container, chunks_of.
  rewrite <- (filter_ext _ _ kept_chunk).
  destruct (present_nonempty (GroundingMetadata.grounding_supports container));
    [rewrite append_entries_other, get_set_other by discriminate|];
    destruct (present_nonempty (GroundingMetadata.grounding_chunks container));
    try reflexivity;
    now rewrite (append_entries_get _ _ _ _ []).
Qed.

Lemma normalize_container_supports (container : GroundingMetadata.t) :
  PyDict.get (normalize_container container) "grounding_supports"
  = match GroundingMetadata.grounding_supports container with
    | Val (x :: l) =>
        Some (PList (map (fun s => PDict (support_data s))
                       (filter support_populated (x :: l))))
    | _ => None
    end.
Proof.
  unfold normalize_container.
  assert (C : forall gm,
             gm = [("grounding_chunks", PList [])]
             \/ (exists chunks,
                   gm = append_entries chunk_data "grounding_chunks"
                          [("grounding_chunks", PList [])] chunks) ->
             PyDict.get gm "grounding_supports" = None).
  { intros gm [->|[chunks ->]]; [reflexivity|].
    now rewrite append_entries_other by discriminate. }
  set (gm := match present_nonempty (GroundingMetadata.grounding_chunks container)
             with Some _ => _ | None => _ end).
  assert (G : PyDict.get gm "grounding_supports" = None).
  { apply C. subst gm.
    destruct (present_nonempty (GroundingMetadata.grounding_chunks container));
      eauto. }
  destruct (GroundingMetadata.grounding_supports container) as [| |[|x l]];
    cbn [present_nonempty]; try exact G.
  rewrite (append_entries_get _ _ _ _ []) by apply get_set_same.
  now rewrite (filter_ext _ _ kept_support).
Qed.

(** C6: a candidate without a grounding container gives [None]; with one,
    the two output sequences hold, in input order, the dicts of exactly the
    chunks that have a web source or a retrieved context and of the supports
    that have a segment, chunk indices or confidence scores, and no entry of
    either sequence is an empty dict. *)
Theorem normalize_keeps_populated_entries (candidate : Candidate.t) :
  (present (Candidate.grounding_metadata candidate) = None ->
   normalize candidate = PNone)
  /\ (forall container,
        Candidate.grounding_metadata candidate = Val container ->
        exists d chunks supports,
          normalize candidate = PDict d
          /\ chunks = map (fun c => PDict (chunk_data c))
                        (filter chunk_populated (chunks_of container))
          /\ supports = map (fun s => PDict (support_data s))
                          (filter support_populated (supports_of container))
          /\ PyDict.get d "grounding_chunks" = Some (PList chunks)
          /\ PyDict.get d "grounding_supports"
             = (if list_truthy (supports_of container)
                then Some (PList supports) else None)
          /\ Forall nonempty_dict chunks
          /\ Forall nonempty_dict supports).
Proof.
  split.
  - unfold normalize. now intros ->.
  - intros container E. unfold normalize. rewrite E. cbn [present].
    eexists _, _, _. split; [reflexivity|]. split; [reflexivity|].
    split; [reflexivity|]. split; [apply normalize_container_chunks|].
    split; [|split].
    + rewrite normalize_container_supports. unfold supports_of.
      destruct (GroundingMetadata.grounding_supports container) as [| |[|x l]];
        reflexivity.
    + rewrite <- (filter_ext _ _ kept_chunk). apply kept_entries_nonempty.
    + rewrite <- (filter_ext _ _ kept_support). apply kept_entries_nonempty.
Qed.

Lemma normalize_keeps_populated_entries_witness :
  normalize bare_candidate = PNone
  /\ exists d chunks supports,
       normalize mixed_candidate = PDict d
       /\ chunks = [PDict (chunk_data paris_chunk)]
       /\ supports = []
       /\ PyDict.get d "grounding_chunks" = Some (PList chunks)
       /\ PyDict.get d "grounding_supports" = Some (PList supports)
       /\ Forall nonempty_dict chunks
       /\ Forall nonempty_dict supports.
Proof.
  split.
  - exact (proj1 (normalize_keeps_populated_entries bare_candidate) eq_refl).
  - exact (proj2 (normalize_keeps_populated_entries mixed_candidate) _ eq_refl).
Defined.

(** C7, as the code has it: for a candidate with one chunk whose only
    populated field is the text "Paris is the capital" of its retrieved
    context, the output has the one chunk with its [retrieved_context]; the
    absent source [web] is left out, and the absent [uri] and [title] are
    keys of the output that hold [None]. *)
Theorem normalize_text_only_chunk
    (web : field Web.t) (uri title : field string)
    (supports : field (list GroundingSupport.t)) :
  present web = None ->
  getattr_or_none uri = None ->
  getattr_or_none title = None ->
  present_nonempty supports = None ->
  normalize
    {| Candidate.grounding_metadata :=
         Val {| GroundingMetadata.grounding_chunks :=
                  Val [{| GroundingChunk.web := web;
                          GroundingChunk.retrieved_context :=
                            Val {| RetrievedContext.uri := uri;
                                   RetrievedContext.title := title;
                                   RetrievedContext.text :=
                                     Val "Paris is the capital" |} |}];
                GroundingMetadata.grounding_supports := supports |} |}
  = paris_with_none_fields.
Proof.
  intros Hw Hu Ht Hs.
  destruct web; try discriminate Hw.
  all: destruct uri; try discriminate Hu.
  all: destruct title; try discriminate Ht.
  all: destruct supports as [| |[|x l]]; try discriminate Hs.
  all: reflexivity.
Qed.

Lemma normalize_text_only_chunk_witness :
  normalize paris_candidate = paris_with_none_fields.
Proof.
  exact (normalize_text_only_chunk IsNone IsNone IsNone IsNone
           eq_refl eq_refl eq_refl eq_refl).
Defined.

(** C7 as it is worded has the absent sub-fields left out of the output. *)
Lemma normalize_paris_fields_not_omitted :
  normalize paris_candidate <> paris_with_fields_omitted.
Proof. vm_compute. discriminate. Qed.

(** C8: the output has the key [grounding_supports] exactly when the raw
    container holds a non-empty sequence of supports; the key then holds the
    dicts of the supports that are kept, which may be none. *)
Theorem grounding_supports_key (container : GroundingMetadata.t) :
  ((exists v,
      PyDict.get (normalize_container container) "grounding_supports" = Some v)
   <-> (exists x l,
          GroundingMetadata.grounding_supports container = Val (x :: l)))
  /\ PyDict.get (normalize_container container) "grounding_supports"
     = match GroundingMetadata.grounding_supports container with
       | Val (x :: l) =>
           Some (PList (map (fun s => PDict (support_data s))
                          (filter support_populated (x :: l))))
       | _ => None
       end.
Proof.
  split; [|apply normalize_container_supports].
  rewrite normalize_container_supports.
  destruct (GroundingMetadata.grounding_supports container) as [| |[|x l]].
  1-3: split; [intros [v H]; discriminate H | intros (x & l & H); discriminate H].
  split; eauto.
Qed.

(** ** Running the monad *)

(** Unfolds the monad's operations and the logged backend calls in the goal,
    up to the next call into the world. *)
Ltac run :=
  cbv beta iota delta
    [bind ret raise sleep log remote lift_result try_except try_finally
     client_operations_get client_upload client_generate_content
     client_stores_delete create_file os_path_exists];
  cbn [world files trace].

(** ** The polling loop *)

Section Poller.

Context {W : Type} (env : Env W).

Lemma poll_while_eq (fuel attempt : nat) (operation : Operation.t) :
  poll_while env fuel attempt operation
  = if negb (Operation.done operation) && (attempt <? max_attempts)%nat then
      match fuel with
      | O => ret operation
      | S fuel' =>
          sleep 5 ;;;
          operation <- client_operations_get env operation ;;
          poll_while env fuel' (attempt + 1) operation
      end
    else ret operation.
Proof. destruct fuel; reflexivity. Qed.

(** The fuel given by [poll_until_done] is enough: with at least
    [max_attempts - attempt] units the loop ends by its own condition. *)
Lemma poll_while_fuel (fuel attempt : nat) (operation : Operation.t) (s : State W) :
  max_attempts - attempt <= fuel ->
  poll_while env fuel attempt operation s
  = poll_while env (max_attempts - attempt) attempt operation s.
Proof.
  revert attempt operation s.
  induction fuel as [|fuel IH]; intros attempt operation s Hf.
  - replace (max_attempts - attempt) with 0 by lia. reflexivity.
  - rewrite !poll_while_eq.
    destruct (negb (Operation.done operation)); [|reflexivity].
    destruct (Nat.ltb_spec attempt max_attempts) as [Hlt|Hge]; [|reflexivity].
    cbn [andb].
    destruct (max_attempts - attempt) as [|m] eqn:Em; [lia|].
    run.
    destruct (operations_get env operation (world s)) as [[e|operation'] w'];
      [reflexivity|].
    rewrite IH by lia.
    replace (max_attempts - (attempt + 1)) with m by lia. reflexivity.
Qed.

(** While the operation stays not done, the loop uses up its budget: one
    sleep of 5 and one status fetch per remaining attempt. *)
Lemma poll_while_stuck (fuel attempt : nat) (operation : Operation.t) (s : State W) :
  never_done env ->
  Operation.done operation = false ->
  attempt + fuel = max_attempts ->
  exists operation' s' fetched,
    poll_while env fuel attempt operation s = (inr operation', s')
    /\ Operation.done operation' = false
    /\ length fetched = fuel
    /\ trace s' = (trace s ++ flat_map poll_round fetched)%list
    /\ files s' = files s.
Proof.
  intros Hnd. revert attempt operation s.
  induction fuel as [|fuel IH]; intros attempt operation s Hd Hb;
    rewrite poll_while_eq, Hd; cbn [negb andb].
  - destruct (Nat.ltb_spec attempt max_attempts) as [Hlt|_]; [lia|].
    exists operation, s, []. cbn [flat_map]. rewrite app_nil_r. auto.
  - destruct (Nat.ltb_spec attempt max_attempts) as [_|Hge]; [|lia].
    run.
    destruct (Hnd operation (world s)) as (operation1 & w1 & E & Hd1).
    rewrite E.
    destruct (IH (attempt + 1) operation1
                (Build_State w1 (files s)
                   ((trace s ++ [Sleep 5]) ++ [OperationsGet operation])%list)
                Hd1 ltac:(lia))
      as (operation' & s' & fetched & R & Hd' & Hl & Ht & Hf).
    exists operation', s', (operation :: fetched).
    rewrite R. cbn [trace files] in Ht, Hf.
    repeat split; auto.
    + cbn [length]. now rewrite Hl.
    + rewrite Ht. cbn [flat_map poll_round].
      now rewrite <- !app_assoc.
Qed.

Lemma poll_until_done_returns_done
    (operation operation' : Operation.t) (s s' : State W) :
  poll_until_done env operation s = (inr operation', s') ->
  Operation.done operation' = true.
Proof.
  unfold poll_until_done, bind.
  destruct (poll_while env max_attempts 0 operation s) as [[e|o] s1];
    [discriminate|].
  destruct (Operation.done o) eqn:Hd; cbn [negb]; unfold raise, ret;
    [|discriminate].
  now intros [= <- _].
Qed.

Lemma poll_until_done_stuck (operation : Operation.t) (s : State W) :
  never_done env ->
  Operation.done operation = false ->
  exists s' fetched,
    poll_until_done env operation s
    = (inl (HTTPException 408 "Upload operation timed out"), s')
    /\ length fetched = max_attempts
    /\ trace s' = (trace s ++ flat_map poll_round fetched)%list.
Proof.
  intros Hnd Hd.
  destruct (poll_while_stuck max_attempts 0 operation s Hnd Hd eq_refl)
    as (operation' & s' & fetched & R & Hd' & Hl & Ht & _).
  exists s', fetched. unfold poll_until_done, bind. rewrite R, Hd'.
  auto.
Qed.

(** The poller of [upload_file], lines 197-206: when the operation never
    becomes done, it sleeps 5 and fetches the status exactly 60 times and
    then raises the time-out error; and whatever the backend does, an
    operation that it returns is done. *)
Theorem poll_until_done_times_out :
  (forall (operation : Operation.t) (s : State W),
      never_done env ->
      Operation.done operation = false ->
      exists s' fetched,
        poll_until_done env operation s
        = (inl (HTTPException 408 "Upload operation timed out"), s')
        /\ length fetched = 60
        /\ trace s' = (trace s ++ flat_map poll_round fetched)%list)
  /\ (forall (operation operation' : Operation.t) (s s' : State W),
        poll_until_done env operation s = (inr operation', s') ->
        Operation.done operation' = true).
Proof.
  split; [|apply poll_until_done_returns_done].
  intros operation s Hnd Hd. now apply poll_until_done_stuck.
Qed.

(** The helper [wait_for_operation] cannot run its loop: the module does not
    bind [asyncio].  It returns an operation that is done already and fails
    with a [NameError] before any fetch otherwise. *)
Remark wait_for_operation_unbound_name (operation : Operation.t) (s : State W) :
  wait_for_operation env operation s
  = if Operation.done operation
    then (inr operation, s)
    else (inl (PyException "NameError" "name 'asyncio' is not defined"), s).
Proof.
  unfold wait_for_operation.
  change (wait_while env max_attempts) with (wait_while env 60).
  cbn [wait_while].
  destruct (Operation.done operation) eqn:Hd; cbn [negb andb]; run.
  - now rewrite Hd.
  - reflexivity.
Qed.

End Poller.

Lemma stuck_world_never_done : never_done stuck_world.
Proof. intros operation w. eexists _, _. split; reflexivity. Qed.

Lemma poll_until_done_times_out_witness :
  exists s' fetched,
    poll_until_done stuck_world
      {| Operation.name := "operations/1"; Operation.done := false |} (initial 0)
    = (inl (HTTPException 408 "Upload operation timed out"), s')
    /\ length fetched = 60
    /\ trace s' = (trace (initial 0) ++ flat_map poll_round fetched)%list.
Proof.
  exact (proj1 (poll_until_done_times_out stuck_world)
           {| Operation.name := "operations/1"; Operation.done := false |}
           (initial 0) stuck_world_never_done eq_refl).
Defined.

(** ** [upload_file] *)

Section Upload.

Context {W : Type} (env : Env W).

(** The [finally] clause never raises and leaves no file at the path. *)
Lemma cleanup_removes (path : string) (s : State W) :
  exists s',
    cleanup path s = (inr tt, s')
    /\ path_in path (files s') = false
    /\ world s' = world s
    /\ trace s' = trace s.
Proof.
  unfold cleanup. run.
  destruct (path_in path (files s)) eqn:E; unfold os_unlink; try rewrite E.
  - eexists; split; [reflexivity|]. cbn [files world trace].
    split; auto. unfold path_in. clear E.
    induction (files s) as [|p fs IH]; [reflexivity|]. cbn [filter].
    destruct (String.eqb path p) eqn:Ep; cbn [negb]; [exact IH|].
    cbn [existsb]. now rewrite Ep.
  - exists s. auto.
Qed.

(** Every failure of the endpoint leaves it as an HTTP 500: the handler of
    the outer [try] catches whatever is raised inside, the 408 of the poller
    included. *)
Lemma upload_file_raises_500 (file : UploadFile.t) (store_name display_name : string)
    (metadata : option string) (max_tokens_per_chunk max_overlap_tokens : Z)
    (s : State W) :
  match fst (upload_file env file store_name display_name metadata
               max_tokens_per_chunk max_overlap_tokens s) with
  | inl e => status_of e = Some 500
  | inr _ => True
  end.
Proof.
  unfold upload_file, try_except.
  match goal with |- context [match ?c s with _ => _ end] => destruct (c s) as [[e|v] s'] end;
    cbn; auto.
Qed.

(** Once the upload is staged, the request leaves no temporary file behind,
    however the indexing ends. *)
Lemma upload_file_removes_staged_file (file : UploadFile.t)
    (store_name display_name : string) (metadata : option string)
    (max_tokens_per_chunk max_overlap_tokens : Z)
    (s s1 : State W) (tmp_file_path : string) :
  stage_upload env file s = (inr tmp_file_path, s1) ->
  path_in tmp_file_path
    (files (snd (upload_file env file store_name display_name metadata
                   max_tokens_per_chunk max_overlap_tokens s))) = false.
Proof.
  intros Hs. unfold upload_file, try_except, bind. rewrite Hs.
  unfold try_finally.
  destruct (index_upload env tmp_file_path store_name display_name metadata
              max_tokens_per_chunk max_overlap_tokens s1) as [r s2].
  destruct (cleanup_removes tmp_file_path s2) as (s3 & -> & Hp & _).
  destruct r; exact Hp.
Qed.

(** The submission of a staged upload whose operation never completes ends
    in the 408 of the poller. *)
Lemma index_upload_times_out (tmp_file_path store_name display_name : string)
    (metadata : option string) (max_tokens_per_chunk max_overlap_tokens : Z)
    (s : State W) :
  (forall m, metadata = Some m -> str_truthy m = true ->
             exists items, json_loads env m = inr items) ->
  accepts_uploads env ->
  never_done env ->
  exists s',
    index_upload env tmp_file_path store_name display_name metadata
      max_tokens_per_chunk max_overlap_tokens s
    = (inl (HTTPException 408 "Upload operation timed out"), s')
    /\ length (filter is_fetch (trace s'))
       = length (filter is_fetch (trace s)) + 60.
Proof.
  intros Hj Hu Hnd. unfold index_upload.
  assert (P : exists items,
             match metadata with
             | Some metadata =>
                 if str_truthy metadata
                 then lift_result (json_loads env metadata)
                 else ret []
             | None => ret []
             end s = (inr items, s)).
  { destruct metadata as [m|]; [|now exists []].
    destruct (str_truthy m) eqn:Et; [|now exists []].
    destruct (Hj m eq_refl Et) as [items ->]. now exists items. }
  destruct P as [items P]. unfold bind at 1. rewrite P.
  set (config := PDict _). run.
  destruct (Hu tmp_file_path store_name config (world s)) as (op & w1 & -> & Hd).
  match goal with |- context [poll_until_done env op ?s1] =>
    destruct (poll_until_done_stuck env op s1 Hnd Hd)
      as (s' & fetched & -> & Hl & Ht)
  end.
  exists s'. split; [reflexivity|].
  rewrite Ht. cbn [trace]. rewrite !filter_app, !length_app. cbn.
  assert (F : forall l, length (filter is_fetch (flat_map poll_round l)) = length l).
  { induction l as [|o l IH]; [reflexivity|]. cbn. now rewrite IH. }
  rewrite F, Hl. unfold max_attempts. lia.
Qed.

(** C1, on the code: an upload that is staged and submitted, and whose
    operation is still not done when the poll budget is used up, is answered
    with HTTP 500; the detail carries the text of the 408 that the poller
    raised. *)
Theorem upload_timeout_raises_500 (file : UploadFile.t)
    (store_name display_name : string) (metadata : option string)
    (max_tokens_per_chunk max_overlap_tokens : Z)
    (s s1 : State W) (tmp_file_path : string) :
  stage_upload env file s = (inr tmp_file_path, s1) ->
  (forall m, metadata = Some m -> str_truthy m = true ->
             exists items, json_loads env m = inr items) ->
  accepts_uploads env ->
  never_done env ->
  fst (upload_file env file store_name display_name metadata
         max_tokens_per_chunk max_overlap_tokens s)
  = inl (HTTPException 500
           "Failed to upload file: 408: Upload operation timed out").
Proof.
  intros Hs Hj Hu Hnd. unfold upload_file, try_except, bind. rewrite Hs.
  unfold try_finally.
  destruct (index_upload_times_out tmp_file_path store_name display_name
              metadata max_tokens_per_chunk max_overlap_tokens s1 Hj Hu Hnd)
    as (s2 & -> & _).
  destruct (cleanup_removes tmp_file_path s2) as (s3 & -> & _).
  reflexivity.
Qed.

(** C10, on the code: when the temporary file was created and reading the
    upload or writing it to the file fails, the request ends with HTTP 500
    and the temporary file is still on disk. *)
Theorem upload_keeps_temp_file_when_staging_fails (file : UploadFile.t)
    (store_name display_name : string) (metadata : option string)
    (max_tokens_per_chunk max_overlap_tokens : Z)
    (s : State W) (filename tmp_file_path : string) (w1 : W) (e : Exn) :
  UploadFile.filename file = Some filename ->
  named_temporary_file env (snd (splitext env filename)) (world s)
  = (inr tmp_file_path, w1) ->
  (UploadFile.read file = inl e
   \/ exists content w2,
        UploadFile.read file = inr content
        /\ tmp_file_write env tmp_file_path content w1 = (inl e, w2)) ->
  exists s',
    upload_file env file store_name display_name metadata
      max_tokens_per_chunk max_overlap_tokens s
    = (inl (HTTPException 500 ("Failed to upload file: " ++ str e)), s')
    /\ path_in tmp_file_path (files s') = true.
Proof.
  intros Hn Ht Hf. unfold upload_file, stage_upload. rewrite Hn. run. rewrite Ht.
  assert (Hin : forall fs, path_in tmp_file_path (tmp_file_path :: fs) = true).
  { intros fs. unfold path_in. cbn [existsb]. now rewrite String.eqb_refl. }
  run.
  destruct Hf as [Hr|(content & w2 & Hr & Hw)]; rewrite Hr; run;
    [|rewrite Hw];
    (eexists; split; [reflexivity | apply Hin]).
Qed.

End Upload.

Lemma stuck_world_accepts_uploads : accepts_uploads stuck_world.
Proof. intros file name config w. eexists _, _. split; reflexivity. Qed.

Lemma upload_timeout_raises_500_witness :
  fst (upload_file stuck_world report_file "fileSearchStores/reports" "Report"
         None 800 100 (initial 0))
  = inl (HTTPException 500
           "Failed to upload file: 408: Upload operation timed out").
Proof.
  refine (upload_timeout_raises_500 stuck_world report_file
            "fileSearchStores/reports" "Report" None 800 100 (initial 0)
            _ _ eq_refl _ stuck_world_accepts_uploads stuck_world_never_done).
  intros m H. discriminate H.
Defined.

Lemma upload_keeps_temp_file_when_staging_fails_witness :
  exists s',
    upload_file full_disk_world report_file "fileSearchStores/reports" "Report"
      None 800 100 (initial 0)
    = (inl (HTTPException 500
              ("Failed to upload file: " ++ str disk_full)), s')
    /\ path_in "/tmp/tmp0.txt" (files s') = true.
Proof.
  refine (upload_keeps_temp_file_when_staging_fails full_disk_world report_file
            "fileSearchStores/reports" "Report" None 800 100 (initial 0)
            "report.txt" "/tmp/tmp0.txt" 0 disk_full eq_refl eq_refl _).
  right. exists "quarterly figures", 0. split; reflexivity.
Defined.

(** ** [query_documents] *)

Section Query.

Context {W : Type} (env : Env W).

Lemma query_attempt_fails (request : QueryRequest.t) (s : State W) (e : Exn) (w' : W) :
  generate_content env model_name (QueryRequest.query request)
    [QueryRequest.store_name request] (metadata_filter_of request) (world s)
  = (inl e, w') ->
  query_attempt env request s
  = (inl e, Build_State w' (files s) (trace s ++ [query_call request])).
Proof. intros H. unfold query_attempt. run. now rewrite H. Qed.

(** C4: when the first call to the backend fails with an error that is not
    an overload signal, the endpoint has called the backend once, has not
    slept, and raises HTTP 500 whose detail carries the error text. *)
Theorem query_backend_error_fails_at_once
    (request : QueryRequest.t) (s : State W) (e : Exn) (w' : W) :
  generate_content env model_name (QueryRequest.query request)
    [QueryRequest.store_name request] (metadata_filter_of request) (world s)
  = (inl e, w') ->
  is_overloaded (str e) = false ->
  query_documents env request s
  = (inl (HTTPException 500 ("Query failed: " ++ str e)),
     Build_State w' (files s) (trace s ++ [query_call request])).
Proof.
  intros H Hn. unfold query_documents.
  change (seq 0 max_retries) with [0; 1; 2]. cbn [query_loop].
  unfold try_except. rewrite (query_attempt_fails _ _ _ _ H), Hn.
  reflexivity.
Qed.

(** C3: when every call to the backend fails with an overload error, the
    endpoint calls the backend three times, sleeps 2 after the first call and
    4 after the second, does not sleep after the third, and raises HTTP 503
    with a fixed detail that does not carry the backend's error text. *)
Theorem query_overloaded_gives_up (request : QueryRequest.t) (s : State W) :
  always_overloaded_backend env ->
  exists s',
    query_documents env request s
    = (inl (HTTPException 503
              "The AI model is currently overloaded. Please try again in a few moments."),
       s')
    /\ trace s'
       = (trace s ++ [query_call request; Sleep 2;
                      query_call request; Sleep 4;
                      query_call request])%list
    /\ files s' = files s.
Proof.
  intros Hov. unfold query_documents.
  change (seq 0 max_retries) with [0; 1; 2].
  assert (step : forall s0,
             exists e w',
               query_attempt env request s0
               = (inl e, Build_State w' (files s0) (trace s0 ++ [query_call request]))
               /\ is_overloaded (str e) = true).
  { intros s0.
    destruct (Hov model_name (QueryRequest.query request)
                [QueryRequest.store_name request] (metadata_filter_of request)
                (world s0)) as (e & w' & H & Ho).
    exists e, w'. split; [now apply query_attempt_fails | exact Ho]. }
  cbn [query_loop]. unfold try_except at 1.
  destruct (step s) as (e1 & w1 & -> & ->).
  change (0 <? max_retries - 1)%nat with true. run.
  match goal with |- context [query_attempt env request ?s1] =>
    destruct (step s1) as (e2 & w2 & -> & ->) end.
  change (1 <? max_retries - 1)%nat with true. run.
  match goal with |- context [query_attempt env request ?s2] =>
    destruct (step s2) as (e3 & w3 & -> & ->) end.
  change (2 <? max_retries - 1)%nat with false. run.
  eexists. split; [reflexivity|]. cbn [trace files].
  split; [|reflexivity]. now rewrite <- !app_assoc.
Qed.

End Query.

Lemma overloaded_world_always_overloaded : always_overloaded_backend overloaded_world.
Proof.
  intros model contents names metadata_filter w.
  eexists _, _. split; reflexivity.
Qed.

Lemma query_overloaded_gives_up_witness :
  exists s',
    query_documents overloaded_world capital_request (initial 0)
    = (inl (HTTPException 503
              "The AI model is currently overloaded. Please try again in a few moments."),
       s')
    /\ trace s'
       = [query_call capital_request; Sleep 2;
          query_call capital_request; Sleep 4;
          query_call capital_request]
    /\ files s' = [].
Proof.
  exact (query_overloaded_gives_up overloaded_world capital_request (initial 0)
           overloaded_world_always_overloaded).
Defined.

Lemma query_backend_error_fails_at_once_witness :
  query_documents plain_world capital_request (initial 0)
  = (inl (HTTPException 500 "Query failed: 404 NOT_FOUND. Store not found."),
     Build_State 1 [] [query_call capital_request]).
Proof.
  exact (query_backend_error_fails_at_once plain_world capital_request
           (initial 0) (PyException "ClientError" "404 NOT_FOUND. Store not found.")
           1 eq_refl eq_refl).
Defined.

(** ** Store names handed to the backend *)

Section StoreNames.

Context {W : Type} (env : Env W).

Lemma store_names_sent_app (evs1 evs2 : list Event) :
  store_names_sent (evs1 ++ evs2)
  = (store_names_sent evs1 ++ store_names_sent evs2)%list.
Proof. apply flat_map_app. Qed.

(** A step that leaves the trace as it is. *)
Lemma sends_silent {A : Type} (names : list string) (c : M W A) :
  (forall s, trace (snd (c s)) = trace s) -> sends names c.
Proof.
  intros H s. exists []. rewrite H, app_nil_r. split; [reflexivity|].
  intros x [].
Qed.

Lemma sends_ret {A : Type} (names : list string) (a : A) :
  sends names (ret (W := W) a).
Proof. now apply sends_silent. Qed.

Lemma sends_raise {A : Type} (names : list string) (e : Exn) :
  sends names (raise (W := W) (A := A) e).
Proof. now apply sends_silent. Qed.

Lemma sends_remote {A : Type} (names : list string) (f : W -> (Exn + A) * W) :
  sends names (remote f).
Proof.
  apply sends_silent. intros s. unfold remote.
  now destruct (f (world s)).
Qed.

Lemma sends_log (names : list string) (ev : Event) :
  incl (store_names_sent [ev]) names -> sends names (log (W := W) ev).
Proof. intros H s. exists [ev]. auto. Qed.

Lemma sends_bind {A B : Type} (names : list string) (c : M W A) (k : A -> M W B) :
  sends names c -> (forall a, sends names (k a)) -> sends names (bind c k).
Proof.
  intros Hc Hk s. unfold bind.
  destruct (Hc s) as (evs1 & T1 & I1).
  destruct (c s) as [[e|a] s1]; cbn [snd] in *.
  - now exists evs1.
  - destruct (Hk a s1) as (evs2 & T2 & I2).
    exists (evs1 ++ evs2)%list. rewrite T2, T1, app_assoc. split; [reflexivity|].
    rewrite store_names_sent_app. now apply incl_app.
Qed.

Lemma sends_try_except {A : Type} (names : list string)
    (c : M W A) (h : Exn -> M W A) :
  sends names c -> (forall e, sends names (h e)) -> sends names (try_except c h).
Proof.
  intros Hc Hh s. unfold try_except.
  destruct (Hc s) as (evs1 & T1 & I1).
  destruct (c s) as [[e|a] s1]; cbn [snd] in *.
  - destruct (Hh e s1) as (evs2 & T2 & I2).
    exists (evs1 ++ evs2)%list. rewrite T2, T1, app_assoc. split; [reflexivity|].
    rewrite store_names_sent_app. now apply incl_app.
  - now exists evs1.
Qed.

Lemma sends_try_finally {A : Type} (names : list string)
    (c : M W A) (f : M W unit) :
  sends names c -> sends names f -> sends names (try_finally c f).
Proof.
  intros Hc Hf s. unfold try_finally.
  destruct (Hc s) as (evs1 & T1 & I1).
  destruct (c s) as [r s1]; cbn [snd] in *.
  destruct (Hf s1) as (evs2 & T2 & I2).
  exists (evs1 ++ evs2)%list. split.
  - destruct (f s1) as [[e|u] s2]; cbn [snd] in *; now rewrite T2, T1, app_assoc.
  - rewrite store_names_sent_app. now apply incl_app.
Qed.

Lemma sends_poll_while (names : list string) (fuel attempt : nat)
    (operation : Operation.t) :
  sends names (poll_while env fuel attempt operation).
Proof.
  revert attempt operation.
  induction fuel as [|fuel IH]; intros attempt operation;
    rewrite poll_while_eq;
    destruct (negb (Operation.done operation) && (attempt <? max_attempts)%nat);
    try apply sends_ret.
  apply sends_bind; [apply sends_log; intros x []|]. intros _.
  apply sends_bind; [|intros o; apply IH].
  apply sends_bind; [apply sends_log; intros x [] | intros _; apply sends_remote].
Qed.

Lemma sends_upload_file (file : UploadFile.t) (store_name display_name : string)
    (metadata : option string) (max_tokens_per_chunk max_overlap_tokens : Z) :
  sends [store_name]
    (upload_file env file store_name display_name metadata
       max_tokens_per_chunk max_overlap_tokens).
Proof.
  unfold upload_file.
  apply sends_try_except; [|intros e; apply sends_raise].
  apply sends_bind.
  { unfold stage_upload.
    apply sends_bind.
    { destruct (UploadFile.filename file); [apply sends_ret | apply sends_raise]. }
    intros suffix. apply sends_bind; [apply sends_remote|]. intros path.
    apply sends_bind; [now apply sends_silent|]. intros _.
    apply sends_bind.
    { destruct (UploadFile.read file); [apply sends_raise | apply sends_ret]. }
    intros content. apply sends_bind; [apply sends_remote|]. intros _.
    apply sends_ret. }
  intros path. apply sends_try_finally.
  - unfold index_upload. apply sends_bind.
    { destruct metadata as [m|]; [|apply sends_ret].
      destruct (str_truthy m); [|apply sends_ret].
      destruct (json_loads env m); [apply sends_raise | apply sends_ret]. }
    intros items. apply sends_bind.
    { apply sends_bind; [|intros _; apply sends_remote].
      apply sends_log. cbn. apply incl_refl. }
    intros operation. apply sends_bind; [|intros o; apply sends_ret].
    unfold poll_until_done. apply sends_bind; [apply sends_poll_while|].
    intros o. destruct (negb (Operation.done o));
      [apply sends_raise | apply sends_ret].
  - unfold cleanup. apply sends_bind; [now apply sends_silent|].
    intros [|]; [|apply sends_ret].
    apply sends_silent. intros s. unfold os_unlink.
    now destruct (path_in path (files s)).
Qed.

Lemma sends_query_documents (request : QueryRequest.t) :
  sends [QueryRequest.store_name request] (query_documents env request).
Proof.
  unfold query_documents. generalize 2 as retry_delay.
  induction (seq 0 max_retries) as [|attempt rest IH]; intros retry_delay;
    cbn [query_loop]; [apply sends_raise|].
  apply sends_try_except.
  - unfold query_attempt. apply sends_bind.
    { apply sends_bind; [|intros _; apply sends_remote].
      apply sends_log. cbn. apply incl_refl. }
    intros response. apply sends_bind; [|intros t; apply sends_ret].
    destruct (Response.text response); [apply sends_ret | apply sends_raise].
  - intros e. destruct (is_overloaded (str e)); [|apply sends_raise].
    destruct (attempt <? max_retries - 1)%nat; [|apply sends_raise].
    apply sends_bind; [apply sends_log; intros x []|]. intros _. apply IH.
Qed.

Lemma store_name_of_prefixed (store_id : string) :
  PyStr.startswith (store_name_of store_id) store_prefix = true.
Proof.
  unfold store_name_of.
  destruct (PyStr.startswith store_id store_prefix) eqn:E; cbn [negb].
  - exact E.
  - apply prefix_app.
Qed.

(** C9, as the code has it: [delete_store] hands the backend the store name
    with the prefix "fileSearchStores/", which it adds to a bare identifier
    and does not add twice; [list_documents] calls no backend at all; and
    [upload_file] and [query_documents] hand the backend no store name but
    the one of the request, as it is. *)
Theorem store_names_handed_to_backend :
  (forall store_id force s,
      trace (snd (delete_store env store_id force s))
      = (trace s ++ [FileSearchStoresDelete (store_name_of store_id) force])%list
      /\ PyStr.startswith (store_name_of store_id) store_prefix = true
      /\ store_name_of store_id
         = (if PyStr.startswith store_id store_prefix
            then store_id else store_prefix ++ store_id))
  /\ (forall store_id (s : State W), snd (list_documents store_id s) = s)
  /\ (forall file store_name display_name metadata
             max_tokens_per_chunk max_overlap_tokens,
        sends [store_name]
          (upload_file env file store_name display_name metadata
             max_tokens_per_chunk max_overlap_tokens))
  /\ (forall request,
        sends [QueryRequest.store_name request] (query_documents env request)).
Proof.
  split; [|split; [|split]].
  - intros store_id force s. split; [|split].
    + unfold delete_store. run.
      now destruct (file_search_stores_delete env (store_name_of store_id) force
                      (world s)) as [[e|u] w'].
    + apply store_name_of_prefixed.
    + unfold store_name_of.
      now destruct (PyStr.startswith store_id store_prefix).
  - reflexivity.
  - apply sends_upload_file.
  - apply sends_query_documents.
Qed.

End StoreNames.

(** C9 as it is worded has every store name reach the backend with the
    prefix.  An upload to the bare name "reports" hands the backend
    "reports". *)
Lemma upload_sends_bare_store_name :
  ~ Forall (fun name => PyStr.startswith name store_prefix = true)
      (store_names_sent
         (trace (snd (upload_file plain_world report_file "reports" "Report"
                        None 800 100 (initial 0))))).
Proof.
  vm_compute. intros H. inversion H as [|x l Hx _]. discriminate Hx.
Qed.

Lemma query_sends_bare_store_name :
  store_names_sent (trace (snd (query_documents plain_world bare_request (initial 0))))
  = ["geo"].
Proof. reflexivity. Qed.

(** * Further properties of the endpoints *)

(** ** The polling loop, when the operation completes *)

Section PollerRuns.

Context {W : Type} (env : Env W).

Lemma state_eta (s : State W) : Build_State (world s) (files s) (trace s) = s.
Proof. now destruct s. Qed.

Lemma poll_while_completes (operation operation' : Operation.t)
    (fetched : list Operation.t) (w w' : W) :
  polls env operation w fetched operation' w' ->
  forall (fuel attempt : nat) (s : State W),
    world s = w ->
    length fetched <= fuel ->
    attempt + length fetched <= max_attempts ->
    poll_while env fuel attempt operation s
    = (inr operation',
       Build_State w' (files s) (trace s ++ flat_map poll_round fetched)).
Proof.
  induction 1 as [operation w Hd
                 |operation operation1 operation' w w1 w' fetched Hd E P IH];
    intros fuel attempt s Ew Hf Hb; rewrite poll_while_eq, Hd; cbn [negb andb].
  - cbn [flat_map]. rewrite app_nil_r, <- Ew. unfold ret. now rewrite state_eta.
  - cbn [length] in Hf, Hb.
    destruct (Nat.ltb_spec attempt max_attempts) as [_|Hge]; [|lia].
    destruct fuel as [|fuel]; [lia|]. run. rewrite Ew, E.
    rewrite (IH fuel (attempt + 1)
               (Build_State w1 (files s)
                  ((trace s ++ [Sleep 5]) ++ [OperationsGet operation])%list)
               eq_refl) by lia.
    cbn [files trace flat_map poll_round]. now rewrite <- !app_assoc.
Qed.

Lemma polls_ends_done (operation operation' : Operation.t)
    (fetched : list Operation.t) (w w' : W) :
  polls env operation w fetched operation' w' ->
  Operation.done operation' = true.
Proof. induction 1; assumption. Qed.

Lemma poll_until_done_run (operation operation' : Operation.t)
    (fetched : list Operation.t) (s : State W) (w' : W) :
  polls env operation (world s) fetched operation' w' ->
  length fetched <= max_attempts ->
  poll_until_done env operation s
  = (inr operation',
     Build_State w' (files s) (trace s ++ flat_map poll_round fetched)).
Proof.
  intros P Hl. unfold poll_until_done, bind.
  rewrite (poll_while_completes _ _ _ _ _ P max_attempts 0 s eq_refl)
    by (cbn [Nat.add]; exact Hl).
  now rewrite (polls_ends_done _ _ _ _ _ P).
Qed.

(** When the status fetches succeed and the operation is found done after
    [k] of them, with [k] at most 60, the poller returns that operation
    after exactly [k] rounds of a sleep of 5 and a fetch; an operation that
    is done from the start is returned without a sleep or a fetch. *)
Theorem poll_until_done_completes (operation operation' : Operation.t)
    (fetched : list Operation.t) (s : State W) (w' : W) :
  polls env operation (world s) fetched operation' w' ->
  length fetched <= 60 ->
  poll_until_done env operation s
  = (inr operation',
     Build_State w' (files s) (trace s ++ flat_map poll_round fetched)).
Proof. intros P Hl. now apply poll_until_done_run. Qed.

(** Whatever the backend answers, the loop adds to the trace only rounds of
    a sleep of 5 and a status fetch, and no more of them than it has fuel. *)
Lemma poll_while_rounds (fuel attempt : nat) (operation : Operation.t) (s : State W) :
  exists fetched,
    trace (snd (poll_while env fuel attempt operation s))
    = (trace s ++ flat_map poll_round fetched)%list
    /\ length fetched <= fuel.
Proof.
  revert attempt operation s.
  induction fuel as [|fuel IH]; intros attempt operation s; rewrite poll_while_eq;
    destruct (negb (Operation.done operation) && (attempt <? max_attempts)%nat).
  1,2,4: exists []; cbn; rewrite app_nil_r; auto with arith.
  run. destruct (operations_get env operation (world s)) as [[e|operation1] w1].
  - exists [operation]. cbn [snd trace flat_map poll_round length].
    rewrite <- !app_assoc. split; [reflexivity | lia].
  - match goal with |- context [poll_while env fuel ?a ?o ?s1] =>
      destruct (IH a o s1) as (fetched & T & L) end.
    exists (operation :: fetched). rewrite T. cbn [trace flat_map poll_round length].
    rewrite <- !app_assoc. split; [reflexivity | lia].
Qed.

Lemma poll_until_done_rounds (operation : Operation.t) (s : State W) :
  exists fetched,
    trace (snd (poll_until_done env operation s))
    = (trace s ++ flat_map poll_round fetched)%list
    /\ length fetched <= max_attempts.
Proof.
  destruct (poll_while_rounds max_attempts 0 operation s) as (fetched & T & L).
  exists fetched. split; [|exact L]. unfold poll_until_done, bind.
  destruct (poll_while env max_attempts 0 operation s) as [[e|o] s1];
    cbn [snd] in *; [exact T|].
  now destruct (negb (Operation.done o)).
Qed.

End PollerRuns.

Lemma slow_world_polls :
  polls slow_world (pending 0) 0 [pending 0; pending 1; pending 2] (pending 3) 3.
Proof.
  repeat (eapply polls_step; [reflexivity | reflexivity |]).
  now apply polls_done.
Qed.

Lemma poll_until_done_completes_witness :
  poll_until_done slow_world (pending 0) (initial 0)
  = (inr (pending 3),
     Build_State 3 []
       [Sleep 5; OperationsGet (pending 0);
        Sleep 5; OperationsGet (pending 1);
        Sleep 5; OperationsGet (pending 2)]).
Proof.
  refine (poll_until_done_completes slow_world (pending 0) (pending 3)
            [pending 0; pending 1; pending 2] (initial 0) 3 slow_world_polls _).
  cbn. lia.
Defined.

(** ** [upload_file]: what it does and what it leaves behind *)

Section UploadRuns.

Context {W : Type} (env : Env W).

(** The body of the inner [try], with the parsing of [metadata] and the
    building of [config] named. *)
Lemma index_upload_eq (tmp_file_path store_name display_name : string)
    (metadata : option string) (max_tokens_per_chunk max_overlap_tokens : Z)
    (s : State W) :
  index_upload env tmp_file_path store_name display_name metadata
    max_tokens_per_chunk max_overlap_tokens s
  = match metadata_items env metadata with
    | inl e => (inl e, s)
    | inr items =>
        (operation <-
           client_upload env tmp_file_path store_name
             (PDict (upload_config display_name max_tokens_per_chunk
                       max_overlap_tokens items)) ;;
         operation <- poll_until_done env operation ;;
         ret (upload_reply (Operation.name operation) (Operation.done operation)))
          s
    end.
Proof.
  unfold index_upload, metadata_items. unfold bind at 1.
  destruct metadata as [m|]; [destruct (str_truthy m)|]; try reflexivity.
  destruct (json_loads env m); reflexivity.
Qed.

Lemma stage_upload_inv (file : UploadFile.t) (s s1 : State W) (tmp_file_path : string) :
  stage_upload env file s = (inr tmp_file_path, s1) ->
  files s1 = tmp_file_path :: files s /\ trace s1 = trace s.
Proof.
  unfold stage_upload.
  destruct (UploadFile.filename file) as [filename|]; run;
    [|intros H; discriminate H].
  destruct (named_temporary_file env (snd (splitext env filename)) (world s))
    as [[e|path] w1]; run; [intros H; discriminate H|].
  destruct (UploadFile.read file) as [e|content]; run;
    [intros H; discriminate H|].
  destruct (tmp_file_write env path content w1) as [[e|u] w2]; run;
    [intros H; discriminate H|].
  intros [= <- <-]. auto.
Qed.

Lemma stage_upload_trace (file : UploadFile.t) (s : State W) :
  trace (snd (stage_upload env file s)) = trace s.
Proof.
  unfold stage_upload.
  destruct (UploadFile.filename file) as [filename|]; run; [|reflexivity].
  destruct (named_temporary_file env (snd (splitext env filename)) (world s))
    as [[e|path] w1]; run; [reflexivity|].
  destruct (UploadFile.read file) as [e|content]; run; [reflexivity|].
  now destruct (tmp_file_write env path content w1) as [[e|u] w2].
Qed.

Lemma keeps_files_bind {A B : Type} (c : M W A) (k : A -> M W B) :
  keeps_files c -> (forall a, keeps_files (k a)) -> keeps_files (bind c k).
Proof.
  intros Hc Hk s. unfold bind. specialize (Hc s).
  destruct (c s) as [[e|a] s1]; cbn [snd] in *; [exact Hc|].
  now rewrite Hk.
Qed.

Lemma keeps_files_remote {A : Type} (f : W -> (Exn + A) * W) :
  keeps_files (remote f).
Proof. intros s. unfold remote. now destruct (f (world s)). Qed.

Lemma keeps_files_poll_while (fuel attempt : nat) (operation : Operation.t) :
  keeps_files (poll_while env fuel attempt operation).
Proof.
  revert attempt operation.
  induction fuel as [|fuel IH]; intros attempt operation;
    rewrite poll_while_eq;
    destruct (negb (Operation.done operation) && (attempt <? max_attempts)%nat);
    try (intros s; reflexivity).
  apply keeps_files_bind; [intros s; reflexivity|]. intros _.
  apply keeps_files_bind; [|intros o; apply IH].
  apply keeps_files_bind; [intros s; reflexivity|]. intros _.
  apply keeps_files_remote.
Qed.

Lemma keeps_files_index_upload (tmp_file_path store_name display_name : string)
    (metadata : option string) (max_tokens_per_chunk max_overlap_tokens : Z) :
  keeps_files
    (index_upload env tmp_file_path store_name display_name metadata
       max_tokens_per_chunk max_overlap_tokens).
Proof.
  intros s. rewrite index_upload_eq.
  destruct (metadata_items env metadata) as [e|items]; [reflexivity|].
  revert s. apply keeps_files_bind.
  { apply keeps_files_bind; [intros s; reflexivity|]. intros _.
    apply keeps_files_remote. }
  intros operation. apply keeps_files_bind; [|intros o s; reflexivity].
  unfold poll_until_done. apply keeps_files_bind; [apply keeps_files_poll_while|].
  intros o s. now destruct (negb (Operation.done o)).
Qed.

Lemma filter_other_paths (path : string) (fs : list string) :
  path_in path fs = false ->
  filter (fun p => negb (String.eqb path p)) fs = fs.
Proof.
  unfold path_in. induction fs as [|p fs IH]; cbn [existsb filter]; [reflexivity|].
  intros H. apply orb_false_iff in H as [Hp Hfs]. rewrite Hp. cbn [negb].
  now rewrite IH.
Qed.

(** The [finally] clause removes the path and nothing else. *)
Lemma cleanup_files (path : string) (s : State W) :
  files (snd (cleanup path s))
  = filter (fun p => negb (String.eqb path p)) (files s).
Proof.
  unfold cleanup. run.
  destruct (path_in path (files s)) eqn:E; unfold os_unlink; try rewrite E.
  - reflexivity.
  - cbn [snd]. now rewrite filter_other_paths.
Qed.

(** An upload that was staged under a fresh path leaves the temporary files
    exactly as it found them, on success and on every failure after the
    staging. *)
Theorem upload_file_restores_files (file : UploadFile.t)
    (store_name display_name : string) (metadata : option string)
    (max_tokens_per_chunk max_overlap_tokens : Z)
    (s s1 : State W) (tmp_file_path : string) :
  stage_upload env file s = (inr tmp_file_path, s1) ->
  path_in tmp_file_path (files s) = false ->
  files (snd (upload_file env file store_name display_name metadata
                max_tokens_per_chunk max_overlap_tokens s))
  = files s.
Proof.
  intros Hs Hfresh.
  destruct (stage_upload_inv _ _ _ _ Hs) as [Hf _].
  unfold upload_file, try_except, bind. rewrite Hs. unfold try_finally.
  pose proof (keeps_files_index_upload tmp_file_path store_name display_name
                metadata max_tokens_per_chunk max_overlap_tokens s1) as K.
  destruct (index_upload env tmp_file_path store_name display_name metadata
              max_tokens_per_chunk max_overlap_tokens s1) as [r s2].
  cbn [snd] in K.
  pose proof (cleanup_files tmp_file_path s2) as C.
  destruct (cleanup_removes tmp_file_path s2) as (s3 & E & _).
  rewrite E in C |- *. cbn [snd] in C.
  assert (R : files s3 = files s).
  { rewrite C, K, Hf. cbn [filter]. rewrite String.eqb_refl. cbn [negb].
    now apply filter_other_paths. }
  now destruct r.
Qed.

(** Whatever the backend and the disk do, the endpoint adds to the trace
    either nothing, or one submission to the store it was given followed by
    at most 60 rounds of a sleep of 5 and a status fetch. *)
Theorem upload_file_actions (file : UploadFile.t)
    (store_name display_name : string) (metadata : option string)
    (max_tokens_per_chunk max_overlap_tokens : Z) (s : State W) :
  exists evs,
    trace (snd (upload_file env file store_name display_name metadata
                  max_tokens_per_chunk max_overlap_tokens s))
    = (trace s ++ evs)%list
    /\ (evs = []
        \/ exists tmp_file_path config fetched,
             evs = UploadToFileSearchStore tmp_file_path store_name config
                     :: flat_map poll_round fetched
             /\ length fetched <= 60).
Proof.
  assert (Inner : forall path s1,
             exists evs,
               trace (snd (index_upload env path store_name display_name metadata
                             max_tokens_per_chunk max_overlap_tokens s1))
               = (trace s1 ++ evs)%list
               /\ (evs = []
                   \/ exists config fetched,
                        evs = UploadToFileSearchStore path store_name config
                                :: flat_map poll_round fetched
                        /\ length fetched <= 60)).
  { intros path s1. rewrite index_upload_eq.
    destruct (metadata_items env metadata) as [e|items].
    { exists []. rewrite app_nil_r. auto. }
    set (config := PDict _). run.
    destruct (upload_to_file_search_store env path store_name config (world s1))
      as [[e|operation] w1].
    { exists [UploadToFileSearchStore path store_name config]. split; [reflexivity|].
      right. exists config, []. split; [reflexivity | cbn; lia]. }
    match goal with |- context [poll_until_done env operation ?s2] =>
      destruct (poll_until_done_rounds env operation s2) as (fetched & T & L);
      destruct (poll_until_done env operation s2) as [[e|o] s3] end;
      cbn [snd trace] in *;
      (exists (UploadToFileSearchStore path store_name config
                 :: flat_map poll_round fetched);
       split; [rewrite T, <- app_assoc; reflexivity|];
       right; exists config, fetched; split; [reflexivity | exact L]). }
  unfold upload_file, try_except, bind.
  pose proof (stage_upload_trace file s) as St.
  destruct (stage_upload env file s) as [[e|path] s1]; cbn [snd] in St.
  { exists []. cbn [snd raise]. rewrite app_nil_r. auto. }
  unfold try_finally. destruct (Inner path s1) as (evs & T & Shape).
  destruct (index_upload env path store_name display_name metadata
              max_tokens_per_chunk max_overlap_tokens s1) as [r s2].
  cbn [snd] in T.
  destruct (cleanup_removes path s2) as (s3 & -> & _ & _ & Tc).
  exists evs. split.
  - destruct r; cbn [snd raise]; now rewrite Tc, T, St.
  - destruct Shape as [->|(config & fetched & -> & L)]; [now left|].
    right. now exists path, config, fetched.
Qed.

(** The endpoint returns only for an operation that is done: its reply
    always carries [done: True]. *)
Theorem upload_file_reply_is_done (file : UploadFile.t)
    (store_name display_name : string) (metadata : option string)
    (max_tokens_per_chunk max_overlap_tokens : Z) (s s' : State W) (v : PyVal) :
  upload_file env file store_name display_name metadata
    max_tokens_per_chunk max_overlap_tokens s = (inr v, s') ->
  exists operation_name, v = upload_reply operation_name true.
Proof.
  unfold upload_file, try_except, bind.
  destruct (stage_upload env file s) as [[e|path] s1]; [discriminate|].
  unfold try_finally. rewrite index_upload_eq.
  destruct (metadata_items env metadata) as [e|items].
  { destruct (cleanup_removes path s1) as (s3 & -> & _). discriminate. }
  set (config := PDict _). run.
  destruct (upload_to_file_search_store env path store_name config (world s1))
    as [[e|operation] w1].
  { match goal with |- context [cleanup path ?s2] =>
      destruct (cleanup_removes path s2) as (s3 & -> & _) end. discriminate. }
  match goal with |- context [poll_until_done env operation ?s2] =>
    destruct (poll_until_done env operation s2) as [[e|o] s3] eqn:P end.
  { destruct (cleanup_removes path s3) as (s4 & -> & _). discriminate. }
  destruct (cleanup_removes path s3) as (s4 & -> & _).
  intros [= <- _]. exists (Operation.name o).
  now rewrite (poll_until_done_returns_done env _ _ _ _ P).
Qed.





(** A [metadata] field that does not parse makes the endpoint fail with the
    parser's error before anything is sent to the backend, and the staged
    file is removed. *)
Theorem upload_file_bad_metadata (file : UploadFile.t)
    (store_name display_name : string) (metadata : option string)
    (max_tokens_per_chunk max_overlap_tokens : Z)
    (s s1 : State W) (tmp_file_path : string) (e : Exn) :
  stage_upload env file s = (inr tmp_file_path, s1) ->
  metadata_items env metadata = inl e ->
  exists s',
    upload_file env file store_name display_name metadata
      max_tokens_per_chunk max_overlap_tokens s
    = (inl (HTTPException 500 ("Failed to upload file: " ++ str e)), s')
    /\ trace s' = trace s
    /\ path_in tmp_file_path (files s') = false.
Proof.
  intros Hs Hm. destruct (stage_upload_inv _ _ _ _ Hs) as [_ Ht].
  unfold upload_file, try_except, bind. rewrite Hs. unfold try_finally.
  rewrite index_upload_eq, Hm.
  destruct (cleanup_removes tmp_file_path s1) as (s3 & -> & Hp & _ & Tc).
  eexists. split; [reflexivity|]. cbn [trace files]. split; [|exact Hp].
  now rewrite Tc.
Qed.

(** The [config] that the backend receives has the display name and the two
    chunking limits of the request, and has the key [custom_metadata]
    exactly when the [metadata] field gave at least one item. *)
Theorem upload_config_keys (tmp_file_path store_name display_name : string)
    (metadata : option string) (max_tokens_per_chunk max_overlap_tokens : Z)
    (s : State W) (items : list PyVal) :
  metadata_items env metadata = inr items ->
  exists config rest,
    trace (snd (index_upload env tmp_file_path store_name display_name metadata
                  max_tokens_per_chunk max_overlap_tokens s))
    = (trace s ++ UploadToFileSearchStore tmp_file_path store_name (PDict config)
                    :: rest)%list
    /\ PyDict.get config "display_name" = Some (PStr display_name)
    /\ PyDict.get config "chunking_config"
       = Some (PDict [("white_space_config",
                        PDict [("max_tokens_per_chunk", PInt max_tokens_per_chunk);
                               ("max_overlap_tokens", PInt max_overlap_tokens)])])
    /\ PyDict.get config "custom_metadata"
       = match items with
         | [] => None
         | _ :: _ => Some (PList items)
         end.
Proof.
  intros Hm. rewrite index_upload_eq, Hm.
  exists (upload_config display_name max_tokens_per_chunk max_overlap_tokens items).
  assert (T : exists rest,
             trace (snd ((operation <-
                            client_upload env tmp_file_path store_name
                              (PDict (upload_config display_name max_tokens_per_chunk
                                        max_overlap_tokens items)) ;;
                          operation <- poll_until_done env operation ;;
                          ret (upload_reply (Operation.name operation)
                                 (Operation.done operation))) s))
             = (trace s ++ UploadToFileSearchStore tmp_file_path store_name
                             (PDict (upload_config display_name max_tokens_per_chunk
                                       max_overlap_tokens items)) :: rest)%list).
  { set (config := PDict _). run.
    destruct (upload_to_file_search_store env tmp_file_path store_name config
                (world s)) as [[e|operation] w1].
    { now exists []. }
    match goal with |- context [poll_until_done env operation ?s2] =>
      destruct (poll_until_done_rounds env operation s2) as (fetched & T & _);
      destruct (poll_until_done env operation s2) as [[e|o] s3] end;
      cbn [snd trace] in *; exists (flat_map poll_round fetched);
      now rewrite T, <- app_assoc. }
  destruct T as [rest T]. exists rest. split; [exact T|].
  unfold upload_config. destruct items; cbn [list_truthy]; auto.
Qed.

End UploadRuns.

Lemma upload_file_removes_staged_file_witness :
  path_in "/tmp/tmp0.txt"
    (files (snd (upload_file stuck_world report_file "fileSearchStores/reports"
                   "Report" None 800 100 (initial 0)))) = false.
Proof.
  exact (upload_file_removes_staged_file stuck_world report_file
           "fileSearchStores/reports" "Report" None 800 100 (initial 0)
           (Build_State 0 ["/tmp/tmp0.txt"] []) "/tmp/tmp0.txt" eq_refl).
Defined.

Lemma upload_file_restores_files_witness :
  files (snd (upload_file plain_world report_file "fileSearchStores/reports"
                "Report" None 800 100 (Build_State 0 ["/tmp/other.bin"] [])))
  = ["/tmp/other.bin"].
Proof.
  exact (upload_file_restores_files plain_world report_file
           "fileSearchStores/reports" "Report" None 800 100
           (Build_State 0 ["/tmp/other.bin"] [])
           (Build_State 0 ["/tmp/tmp0.txt"; "/tmp/other.bin"] [])
           "/tmp/tmp0.txt" eq_refl eq_refl).
Defined.

Lemma upload_file_reply_is_done_witness :
  exists operation_name,
    upload_reply "operations/1" true = upload_reply operation_name true.
Proof.
  exact (upload_file_reply_is_done plain_world report_file
           "fileSearchStores/reports" "Report" None 800 100 (initial 0)
           (Build_State 1 []
              [UploadToFileSearchStore "/tmp/tmp0.txt" "fileSearchStores/reports"
                 (PDict (upload_config "Report" 800 100 []));
               Sleep 5;
               OperationsGet {| Operation.name := "operations/1";
                                Operation.done := false |}])
           (upload_reply "operations/1" true) eq_refl).
Defined.


Lemma upload_file_bad_metadata_witness :
  exists s',
    upload_file bad_json_world report_file "fileSearchStores/reports" "Report"
      (Some "{oops") 800 100 (initial 0)
    = (inl (HTTPException 500 ("Failed to upload file: " ++ str bad_json)), s')
    /\ trace s' = []
    /\ path_in "/tmp/tmp0.txt" (files s') = false.
Proof.
  exact (upload_file_bad_metadata bad_json_world report_file
           "fileSearchStores/reports" "Report" (Some "{oops") 800 100 (initial 0)
           (Build_State 0 ["/tmp/tmp0.txt"] []) "/tmp/tmp0.txt" bad_json
           eq_refl eq_refl).
Defined.

Lemma upload_config_keys_witness :
  exists config rest,
    trace (snd (index_upload tagged_world "/tmp/tmp0.txt" "fileSearchStores/reports"
                  "Report" (Some "[{...}]") 800 100 (initial 0)))
    = UploadToFileSearchStore "/tmp/tmp0.txt" "fileSearchStores/reports"
        (PDict config) :: rest
    /\ PyDict.get config "display_name" = Some (PStr "Report")
    /\ PyDict.get config "chunking_config"
       = Some (PDict [("white_space_config",
                        PDict [("max_tokens_per_chunk", PInt 800);
                               ("max_overlap_tokens", PInt 100)])])
    /\ PyDict.get config "custom_metadata" = Some (PList [tagged_item]).
Proof.
  exact (upload_config_keys tagged_world "/tmp/tmp0.txt" "fileSearchStores/reports"
           "Report" (Some "[{...}]") 800 100 (initial 0) [tagged_item] eq_refl).
Defined.

(** ** [query_documents]: every run *)

Section QueryRuns.

Context {W : Type} (env : Env W) (request : QueryRequest.t).

Lemma query_attempt_answers (s : State W) (response : Response.t) (text : string) (w' : W) :
  generate_content env model_name (QueryRequest.query request)
    [QueryRequest.store_name request] (metadata_filter_of request) (world s)
  = (inr response, w') ->
  Response.text response = Some text ->
  query_attempt env request s
  = (inr (query_reply text response),
     Build_State w' (files s) (trace s ++ [query_call request])).
Proof. intros H Ht. unfold query_attempt. run. now rewrite H, Ht. Qed.

(** One attempt calls the backend once, whatever comes of it. *)
Lemma query_attempt_cases (s : State W) :
  exists r s1,
    query_attempt env request s = (r, s1)
    /\ trace s1 = (trace s ++ [query_call request])%list
    /\ match r with
       | inr v => exists text response, v = query_reply text response
       | inl _ => True
       end.
Proof.
  unfold query_attempt. run.
  destruct (generate_content env model_name (QueryRequest.query request)
              [QueryRequest.store_name request] (metadata_filter_of request)
              (world s)) as [[e|response] w1].
  - eexists _, _. split; [reflexivity|]. auto.
  - destruct (Response.text response) as [text|] eqn:Et; run;
      (eexists _, _; split; [reflexivity|]; split; [reflexivity|]); [|exact I].
    now exists text, response.
Qed.

(** The runs of the endpoint: how many calls and sleeps, and what comes out. *)
Lemma query_documents_cases (s : State W) :
  let c := query_call request in
  exists r s' evs,
    query_documents env request s = (r, s')
    /\ trace s' = (trace s ++ evs)%list
    /\ (((evs = [c] \/ evs = [c; Sleep 2; c] \/ evs = [c; Sleep 2; c; Sleep 4; c])
         /\ ((exists text response, r = inr (query_reply text response))
             \/ exists cause,
                  r = inl (HTTPException 500 ("Query failed: " ++ str cause))
                  /\ is_overloaded (str cause) = false))
        \/ (evs = [c; Sleep 2; c; Sleep 4; c]
            /\ r = inl (HTTPException 503 overloaded_detail))).
Proof.
  intros c. unfold query_documents.
  change (seq 0 max_retries) with [0; 1; 2]. cbn [query_loop].
  change (0 <? max_retries - 1)%nat with true.
  change (1 <? max_retries - 1)%nat with true.
  change (2 <? max_retries - 1)%nat with false.
  unfold try_except at 1.
  destruct (query_attempt_cases s) as (r1 & s1 & -> & T1 & V1).
  destruct r1 as [e1|v1].
  2:{ destruct V1 as (text & response & ->). eexists _, _, [c].
      split; [reflexivity|]. split; [exact T1|]. left. split; [now left|].
      left. now exists text, response. }
  destruct (is_overloaded (str e1)) eqn:O1.
  2:{ eexists _, _, [c]. split; [reflexivity|]. split; [exact T1|]. left.
      split; [now left|]. right. now exists e1. }
  run.
  match goal with |- context [query_attempt env request ?s0] =>
    destruct (query_attempt_cases s0) as (r2 & s2 & -> & T2 & V2) end.
  cbn [trace] in T2. rewrite T1, <- !app_assoc in T2. cbn [app] in T2.
  destruct r2 as [e2|v2].
  2:{ destruct V2 as (text & response & ->). eexists _, _, [c; Sleep 2; c].
      split; [reflexivity|]. split; [exact T2|]. left. split; [auto|].
      left. now exists text, response. }
  destruct (is_overloaded (str e2)) eqn:O2.
  2:{ eexists _, _, [c; Sleep 2; c]. split; [reflexivity|]. split; [exact T2|].
      left. split; [auto|]. right. now exists e2. }
  run.
  match goal with |- context [query_attempt env request ?s0] =>
    destruct (query_attempt_cases s0) as (r3 & s3 & -> & T3 & V3) end.
  cbn [trace] in T3. rewrite T2, <- !app_assoc in T3. cbn [app] in T3.
  destruct r3 as [e3|v3].
  2:{ destruct V3 as (text & response & ->).
      eexists _, _, [c; Sleep 2; c; Sleep 4; c].
      split; [reflexivity|]. split; [exact T3|]. left. split; [auto|].
      left. now exists text, response. }
  destruct (is_overloaded (str e3)) eqn:O3;
    (eexists _, _, [c; Sleep 2; c; Sleep 4; c];
     split; [reflexivity|]; split; [exact T3|]).
  - now right.
  - left. split; [auto|]. right. now exists e3.
Qed.

(** Whatever the backend does, the endpoint calls it at most three times,
    each time for the store of the request, and sleeps only between two
    calls: 2 after the first and 4 after the second. *)
Theorem query_documents_actions (s : State W) :
  exists evs,
    trace (snd (query_documents env request s)) = (trace s ++ evs)%list
    /\ (evs = [query_call request]
        \/ evs = [query_call request; Sleep 2; query_call request]
        \/ evs = [query_call request; Sleep 2; query_call request; Sleep 4;
                  query_call request]).
Proof.
  destruct (query_documents_cases s) as (r & s' & evs & -> & T & C).
  exists evs. split; [exact T|].
  destruct C as [[Sh _]|[-> _]]; auto.
Qed.

(** The endpoint fails in two ways only: HTTP 503 with the fixed overload
    detail, after three calls, or HTTP 500 whose detail is "Query failed: "
    followed by the text of an error that is not an overload signal. *)
Theorem query_documents_failures (s s' : State W) (e : Exn) :
  query_documents env request s = (inl e, s') ->
  e = HTTPException 503 overloaded_detail
  \/ exists cause,
       e = HTTPException 500 ("Query failed: " ++ str cause)
       /\ is_overloaded (str cause) = false.
Proof.
  intros H. destruct (query_documents_cases s) as (r & s1 & evs & E & _ & C).
  rewrite H in E. injection E as <- _.
  destruct C as [[_ [(text & response & E)|(cause & E & O)]]|[_ E]].
  - discriminate E.
  - right. exists cause. split; [congruence | exact O].
  - left. congruence.
Qed.

(** The statement after the loop, line 338, is never reached: the endpoint
    never fails with "Query failed after multiple retries". *)
Theorem query_documents_fallback_unreachable (s : State W) :
  fst (query_documents env request s)
  <> inl (HTTPException 500 "Query failed after multiple retries").
Proof.
  destruct (query_documents_cases s) as (r & s1 & evs & -> & _ & C). cbn [fst].
  destruct C as [[_ [(text & response & ->)|(cause & -> & _)]]|[_ ->]];
    intros H; [discriminate H| |discriminate H].
  cbn in H. discriminate H.
Qed.

(** A first call that succeeds is the only call: the endpoint returns its
    text and its grounding metadata without a sleep. *)
Theorem query_documents_first_answer (s : State W) (response : Response.t)
    (text : string) (w' : W) :
  generate_content env model_name (QueryRequest.query request)
    [QueryRequest.store_name request] (metadata_filter_of request) (world s)
  = (inr response, w') ->
  Response.text response = Some text ->
  query_documents env request s
  = (inr (query_reply text response),
     Build_State w' (files s) (trace s ++ [query_call request])).
Proof.
  intros H Ht. unfold query_documents.
  change (seq 0 max_retries) with [0; 1; 2]. cbn [query_loop].
  unfold try_except at 1. now rewrite (query_attempt_answers _ _ _ _ H Ht).
Qed.

(** An overload at the first call followed by an answer at the second gives
    that answer after one sleep of 2. *)
Theorem query_documents_recovers (s : State W) (e1 : Exn) (response : Response.t)
    (text : string) (w1 w2 : W) :
  generate_content env model_name (QueryRequest.query request)
    [QueryRequest.store_name request] (metadata_filter_of request) (world s)
  = (inl e1, w1) ->
  is_overloaded (str e1) = true ->
  generate_content env model_name (QueryRequest.query request)
    [QueryRequest.store_name request] (metadata_filter_of request) w1
  = (inr response, w2) ->
  Response.text response = Some text ->
  query_documents env request s
  = (inr (query_reply text response),
     Build_State w2 (files s)
       (trace s ++ [query_call request; Sleep 2; query_call request])).
Proof.
  intros H1 O1 H2 Ht. unfold query_documents.
  change (seq 0 max_retries) with [0; 1; 2]. cbn [query_loop].
  unfold try_except at 1. rewrite (query_attempt_fails env _ _ _ _ H1), O1.
  change (0 <? max_retries - 1)%nat with true. run.
  rewrite (query_attempt_answers _ response text w2) by assumption.
  cbn [files trace]. now rewrite <- !app_assoc.
Qed.

(** An error that is not an overload signal ends the retries where it
    occurs: after an overload at the first call, such an error at the second
    call is reported at once, and there is no third call. *)
Theorem query_documents_stops_retrying (s : State W) (e1 e2 : Exn) (w1 w2 : W) :
  generate_content env model_name (QueryRequest.query request)
    [QueryRequest.store_name request] (metadata_filter_of request) (world s)
  = (inl e1, w1) ->
  is_overloaded (str e1) = true ->
  generate_content env model_name (QueryRequest.query request)
    [QueryRequest.store_name request] (metadata_filter_of request) w1
  = (inl e2, w2) ->
  is_overloaded (str e2) = false ->
  query_documents env request s
  = (inl (HTTPException 500 ("Query failed: " ++ str e2)),
     Build_State w2 (files s)
       (trace s ++ [query_call request; Sleep 2; query_call request])).
Proof.
  intros H1 O1 H2 O2. unfold query_documents.
  change (seq 0 max_retries) with [0; 1; 2]. cbn [query_loop].
  unfold try_except at 1. rewrite (query_attempt_fails env _ _ _ _ H1), O1.
  change (0 <? max_retries - 1)%nat with true. run.
  rewrite (query_attempt_fails env request _ e2 w2) by assumption.
  rewrite O2. cbn [files trace raise]. now rewrite <- !app_assoc.
Qed.

End QueryRuns.

Lemma query_documents_failures_witness :
  HTTPException 500 "Query failed: 404 NOT_FOUND. Store not found."
  = HTTPException 503 overloaded_detail
  \/ exists cause,
       HTTPException 500 "Query failed: 404 NOT_FOUND. Store not found."
       = HTTPException 500 ("Query failed: " ++ str cause)
       /\ is_overloaded (str cause) = false.
Proof.
  exact (query_documents_failures plain_world capital_request (initial 0)
           (Build_State 1 [] [query_call capital_request])
           (HTTPException 500 "Query failed: 404 NOT_FOUND. Store not found.")
           eq_refl).
Defined.

Lemma query_documents_first_answer_witness :
  query_documents answering_world capital_request (initial 0)
  = (inr (query_reply "Paris." paris_response),
     Build_State 1 [] [query_call capital_request]).
Proof.
  exact (query_documents_first_answer answering_world capital_request (initial 0)
           paris_response "Paris." 1 eq_refl eq_refl).
Defined.

Lemma query_documents_recovers_witness :
  query_documents recovering_world capital_request (initial 0)
  = (inr (query_reply "Paris." paris_response),
     Build_State 2 []
       [query_call capital_request; Sleep 2; query_call capital_request]).
Proof.
  exact (query_documents_recovers recovering_world capital_request (initial 0)
           (PyException "ServerError" "503 UNAVAILABLE. The model is overloaded.")
           paris_response "Paris." 1 2 eq_refl eq_refl eq_refl eq_refl).
Defined.

Lemma query_documents_stops_retrying_witness :
  query_documents degrading_world capital_request (initial 0)
  = (inl (HTTPException 500 "Query failed: 404 NOT_FOUND. Store not found."),
     Build_State 2 []
       [query_call capital_request; Sleep 2; query_call capital_request]).
Proof.
  exact (query_documents_stops_retrying degrading_world capital_request (initial 0)
           (PyException "ServerError" "503 UNAVAILABLE. The model is overloaded.")
           (PyException "ClientError" "404 NOT_FOUND. Store not found.")
           1 2 eq_refl eq_refl eq_refl eq_refl).
Defined.

(** ** The error classification, once more *)

(** The classification looks at substrings only: an error text that is an
    overload signal stays one when it is wrapped in more text. *)
Theorem is_overloaded_wrapped (pre error_str post : string) :
  is_overloaded error_str = true ->
  is_overloaded (pre ++ error_str ++ post) = true.
Proof.
  unfold is_overloaded. rewrite !orb_true_iff.
  assert (Sub : forall sub a, PyStr.contains sub a = true ->
                              forall p q, PyStr.contains sub (p ++ a ++ q) = true).
  { intros sub a H p q. apply contains_spec in H as (x & y & ->).
    apply contains_spec. exists (p ++ x), (y ++ q).
    now rewrite !append_assoc. }
  intros [[H|H]|H]; [left; left | left; right | right].
  - now apply Sub.
  - now apply Sub.
  - rewrite !lower_app. now apply Sub.
Qed.

Lemma is_overloaded_wrapped_witness :
  is_overloaded ("Query failed: " ++ "Model is Overloaded" ++ " (retry later)") = true.
Proof.
  exact (is_overloaded_wrapped "Query failed: " "Model is Overloaded"
           " (retry later)" eq_refl).
Defined.

(** ** Store names *)

(** Normalising a store identifier twice is the same as normalising it once,
    and the identifiers that normalisation leaves alone are exactly those
    that start with the prefix. *)
Theorem store_name_of_idempotent (store_id : string) :
  store_name_of (store_name_of store_id) = store_name_of store_id
  /\ (store_name_of store_id = store_id
      <-> PyStr.startswith store_id store_prefix = true).
Proof.
  assert (P : forall x, PyStr.startswith (store_name_of x) store_prefix = true).
  { intros x. unfold store_name_of.
    destruct (PyStr.startswith x store_prefix) eqn:E; cbn [negb];
      [exact E | apply prefix_app]. }
  assert (F : forall x, PyStr.startswith x store_prefix = true ->
                        store_name_of x = x).
  { intros x E. unfold store_name_of. now rewrite E. }
  split; [apply F, P|]. split; [|apply F].
  intros E. rewrite <- E. apply P.
Qed.

Section DeleteStore.

Context {W : Type} (env : Env W).

(** [delete_store] calls the backend once, for the normalised name and with
    the [force] flag it was given; it answers with the fixed success message
    when the backend accepts, and with HTTP 500 and the text of the backend's
    error otherwise. *)
Theorem delete_store_outcome (store_id : string) (force : bool) (s : State W) :
  delete_store env store_id force s
  = let called :=
      (trace s ++ [FileSearchStoresDelete (store_name_of store_id) force])%list in
    match file_search_stores_delete env (store_name_of store_id) force (world s) with
    | (inr _, w') =>
        (inr (PDict [("success", PBool true);
                     ("message", PStr "Store deleted successfully")]),
         Build_State w' (files s) called)
    | (inl e, w') =>
        (inl (HTTPException 500 ("Failed to delete store: " ++ str e)),
         Build_State w' (files s) called)
    end.
Proof.
  unfold delete_store. run.
  now destruct (file_search_stores_delete env (store_name_of store_id) force
                  (world s)) as [[e|u] w'].
Qed.

End DeleteStore.

(** ** [create_store] and [list_stores] *)

Section StoreRuns.

Context {W : Type} (client : StoreClient W).

Lemma fold_append_map {A B : Type} (f : A -> B) (xs : list A) (acc : list B) :
  fold_left (fun acc x => (acc ++ [f x])%list) xs acc = (acc ++ map f xs)%list.
Proof.
  revert acc; induction xs as [|x xs IH]; intros acc; cbn [fold_left map].
  - now rewrite app_nil_r.
  - now rewrite IH, <- app_assoc.
Qed.

(** [list_stores] answers with one dict per store of the backend's listing,
    in the order of the listing, and with HTTP 500 and the text of the error
    when the listing fails.  The dict of a store has a null [create_time]
    only when the store has no such attribute: a creation time that holds
    [None] is listed as the text "None". *)
Theorem list_stores_outcome (s : State W) :
  list_stores client s
  = match file_search_stores_list client (world s) with
    | (inr listing, w') =>
        (inr (PDict [("success", PBool true);
                     ("stores", PList (map store_entry listing))]),
         Build_State w' (files s) (trace s))
    | (inl e, w') =>
        (inl (HTTPException 500 ("Failed to list stores: " ++ str e)),
         Build_State w' (files s) (trace s))
    end
  /\ forall store,
       create_time_of store = PNone <-> Store.create_time store = NoAttr.
Proof.
  split.
  - unfold list_stores. run.
    destruct (file_search_stores_list client (world s)) as [[e|listing] w'];
      [reflexivity|].
    now rewrite fold_append_map.
  - intros store. unfold create_time_of.
    destruct (Store.create_time store); split; intros H;
      try reflexivity; discriminate H.
Qed.

(** [create_store] hands the backend a config with the display name of the
    request and nothing else; it answers with the dict of the store that
    the backend created, and with HTTP 500 and the text of the error when
    the backend refuses. *)
Theorem create_store_outcome (request : CreateStoreRequest.t) (s : State W) :
  create_store client request s
  = match file_search_stores_create client
            (PDict [("display_name",
                      PStr (CreateStoreRequest.display_name request))])
            (world s) with
    | (inr store, w') =>
        (inr (PDict [("success", PBool true); ("store", store_entry store)]),
         Build_State w' (files s) (trace s))
    | (inl e, w') =>
        (inl (HTTPException 500 ("Failed to create store: " ++ str e)),
         Build_State w' (files s) (trace s))
    end.
Proof.
  unfold create_store. run.
  now destruct (file_search_stores_create client _ (world s)) as [[e|store] w'].
Qed.

End StoreRuns.

(** ** The citation extraction, once more *)

Section NormalizerShape.

Lemma append_at_keys (d : PyDict.t) (k : string) (v : PyVal) :
  map fst (PyDict.append_at d k v) = map fst d.
Proof.
  induction d as [|[k' v'] d IH]; cbn [PyDict.append_at map]; [reflexivity|].
  destruct (String.eqb k' k); cbn [map fst]; [reflexivity | now rewrite IH].
Qed.

Lemma append_entries_keys {A : Type} (entry : A -> PyDict.t) (key : string)
    (xs : list A) (gm : PyDict.t) :
  map fst (append_entries entry key gm xs) = map fst gm.
Proof.
  unfold append_entries. revert gm.
  induction xs as [|x xs IH]; intros gm; cbn [fold_left]; [reflexivity|].
  destruct (PyDict.truthy (entry x)); rewrite IH;
    [apply append_at_keys | reflexivity].
Qed.

(** The output for a grounding container has the key [grounding_chunks],
    then the key [grounding_supports] when the container holds a non-empty
    sequence of supports, and no other key. *)
Theorem normalize_container_keys (container : GroundingMetadata.t) :
  map fst (normalize_container container)
  = "grounding_chunks"
      :: match GroundingMetadata.grounding_supports container with
         | Val (_ :: _) => ["grounding_supports"]
         | _ => []
         end.
Proof.
  unfold normalize_container.
  assert (K : map fst
                match present_nonempty (GroundingMetadata.grounding_chunks container) with
                | Some chunks =>
                    append_entries chunk_data "grounding_chunks"
                      [("grounding_chunks", PList [])] chunks
                | None => [("grounding_chunks", PList [])]
                end = ["grounding_chunks"]).
  { destruct (present_nonempty (GroundingMetadata.grounding_chunks container));
      [now rewrite append_entries_keys | reflexivity]. }
  set (gm := match present_nonempty (GroundingMetadata.grounding_chunks container)
             with Some _ => _ | None => _ end) in *.
  destruct (GroundingMetadata.grounding_supports container) as [| |[|x l]];
    cbn [present_nonempty]; try exact K.
  rewrite append_entries_keys.
  destruct gm as [|[k v] [|? ?]]; try discriminate K.
  injection K as ->. reflexivity.
Qed.

Lemma append_entries_map {A : Type} (entry : A -> PyDict.t) (key : string)
    (f : A -> A) (xs : list A) (gm : PyDict.t) :
  (forall x, entry (f x) = entry x) ->
  append_entries entry key gm (map f xs) = append_entries entry key gm xs.
Proof.
  intros H. unfold append_entries. revert gm.
  induction xs as [|x xs IH]; intros gm; cbn [map fold_left]; [reflexivity|].
  now rewrite H, IH.
Qed.

Lemma chunk_data_forget (chunk : GroundingChunk.t) :
  chunk_data (forget_chunk chunk) = chunk_data chunk.
Proof.
  destruct chunk as [[| |[[| |u] [| |t]]] [| |[[| |u'] [| |t'] [| |x]]]];
    reflexivity.
Qed.

Lemma support_data_forget (support : GroundingSupport.t) :
  support_data (forget_support support) = support_data support.
Proof.
  destruct support as [[| |[[| |a] [| |b] [| |t]]] [| |[|i il]] [| |[|c cl]]];
    reflexivity.
Qed.

(** The extraction cannot tell an attribute that is missing from one that
    holds [None], at any level of the candidate. *)
Theorem normalize_forget (candidate : Candidate.t) :
  normalize (forget_candidate candidate) = normalize candidate.
Proof.
  destruct candidate as [[| |[chunks supports]]]; try reflexivity.
  unfold normalize, forget_candidate, forget_container, normalize_container.
  cbn [Candidate.grounding_metadata forget_in present
       GroundingMetadata.grounding_chunks GroundingMetadata.grounding_supports].
  f_equal.
  assert (C : match present_nonempty (forget_in (map forget_chunk) chunks) with
              | Some cs =>
                  append_entries chunk_data "grounding_chunks"
                    [("grounding_chunks", PList [])] cs
              | None => [("grounding_chunks", PList [])]
              end
              = match present_nonempty chunks with
                | Some cs =>
                    append_entries chunk_data "grounding_chunks"
                      [("grounding_chunks", PList [])] cs
                | None => [("grounding_chunks", PList [])]
                end).
  { destruct chunks as [| |[|c cs]]; try reflexivity.
    cbn [forget_in present_nonempty map].
    change (forget_chunk c :: map forget_chunk cs) with (map forget_chunk (c :: cs)).
    apply append_entries_map, chunk_data_forget. }
  rewrite C.
  destruct supports as [| |[|x l]]; try reflexivity.
  cbn [forget_in present_nonempty map].
  change (forget_support x :: map forget_support l)
    with (map forget_support (x :: l)).
  apply append_entries_map, support_data_forget.
Qed.

End NormalizerShape.

(** ** [upload_file]: the run that succeeds *)

Section UploadSucceeds.

Context {W : Type} (env : Env W).

(** When the upload is staged, its [metadata] parses, the backend accepts
    the submission and the operation is found done after at most 60 status
    fetches, the endpoint answers with the name of the completed operation,
    has made one submission and one round of sleep and fetch per status
    fetch, and has removed the staged file. *)
Theorem upload_file_succeeds (file : UploadFile.t)
    (store_name display_name : string) (metadata : option string)
    (max_tokens_per_chunk max_overlap_tokens : Z)
    (s s1 : State W) (tmp_file_path : string) (items : list PyVal)
    (operation operation' : Operation.t) (fetched : list Operation.t) (w1 w2 : W) :
  stage_upload env file s = (inr tmp_file_path, s1) ->
  metadata_items env metadata = inr items ->
  upload_to_file_search_store env tmp_file_path store_name
    (PDict (upload_config display_name max_tokens_per_chunk max_overlap_tokens items))
    (world s1)
  = (inr operation, w1) ->
  polls env operation w1 fetched operation' w2 ->
  length fetched <= 60 ->
  upload_file env file store_name display_name metadata
    max_tokens_per_chunk max_overlap_tokens s
  = (inr (upload_reply (Operation.name operation') true),
     Build_State w2
       (filter (fun p => negb (String.eqb tmp_file_path p)) (files s))
       (trace s
        ++ UploadToFileSearchStore tmp_file_path store_name
             (PDict (upload_config display_name max_tokens_per_chunk
                       max_overlap_tokens items))
           :: flat_map poll_round fetched)).
Proof.
  intros Hs Hm Hu P Hl. destruct (stage_upload_inv env _ _ _ _ Hs) as [Hf Ht].
  unfold upload_file, try_except, bind at 1. rewrite Hs. unfold try_finally.
  rewrite index_upload_eq, Hm. run. rewrite Hu.
  match goal with |- context [poll_until_done env operation ?s2] =>
    rewrite (poll_until_done_run env operation operation' fetched s2 w2 P Hl)
  end.
  cbn [files trace]. rewrite (polls_ends_done env _ _ _ _ _ P).
  unfold cleanup. run. rewrite Hf.
  assert (In1 : path_in tmp_file_path (tmp_file_path :: files s) = true).
  { unfold path_in. cbn [existsb]. now rewrite String.eqb_refl. }
  rewrite In1. unfold os_unlink. cbn [files world trace]. rewrite In1.
  cbn [filter]. rewrite String.eqb_refl. cbn [negb].
  now rewrite Ht, <- app_assoc.
Qed.

End UploadSucceeds.

Lemma upload_file_succeeds_witness :
  upload_file slow_world report_file "fileSearchStores/reports" "Report"
    None 800 100 (initial 0)
  = (inr (upload_reply "operations/1" true),
     Build_State 3 []
       (UploadToFileSearchStore "/tmp/tmp0.txt" "fileSearchStores/reports"
          (PDict (upload_config "Report" 800 100 []))
        :: flat_map poll_round [pending 0; pending 1; pending 2])).
Proof.
  refine (upload_file_succeeds slow_world report_file "fileSearchStores/reports"
            "Report" None 800 100 (initial 0)
            (Build_State 0 ["/tmp/tmp0.txt"] []) "/tmp/tmp0.txt" []
            (pending 0) (pending 3) [pending 0; pending 1; pending 2] 0 3
            eq_refl eq_refl eq_refl slow_world_polls _).
  cbn. lia.
Defined.

(** ** The two copies of the polling loop *)

Section PollerCopies.

Context {W : Type} (env : Env W).

(** C5, on the code: the copy of the poller in [wait_for_operation] does not
    poll.  For an operation that is not done it raises [NameError] at the
    first round, before the first sleep and the first status fetch, and
    leaves the state, and so the trace, as it was: there are no 60 fetches
    and no time-out error. *)
Theorem wait_for_operation_never_polls (operation : Operation.t) (s : State W) :
  Operation.done operation = false ->
  wait_for_operation env operation s
  = (inl (PyException "NameError" "name 'asyncio' is not defined"), s).
Proof.
  intros Hd. unfold wait_for_operation.
  change (wait_while env max_attempts) with (wait_while env 60).
  cbn [wait_while]. rewrite Hd. cbn [negb andb]. run. reflexivity.
Qed.

End PollerCopies.

Lemma wait_for_operation_never_polls_witness :
  wait_for_operation stuck_world (pending 0) (initial 0)
  = (inl (PyException "NameError" "name 'asyncio' is not defined"), initial 0).
Proof.
  exact (wait_for_operation_never_polls stuck_world (pending 0) (initial 0)
           eq_refl).
Defined.
